(** * rss.js: the RSS 2.0 feed generator, embedded and verified

    The module [src/rss.js] turns a list of feed items into one RSS 2.0
    document.  Every function of the module is embedded below under its own
    name.  JavaScript strings are sequences of UTF-16 code units, property
    reads that find nothing give [undefined], and calling a method that a
    value does not have raises a [TypeError]; the embedding keeps all three. *)

From Stdlib Require Import ZArith NArith Bool Ascii String Lia List.
From Stdlib Require Import DecimalString.
Import ListNotations.

Local Open Scope list_scope.

(** ** Strings *)

(** A JavaScript string: its UTF-16 code units, in order. *)
Definition char16 := N.
Definition jsstring := list char16.

(** A string literal of the source (all of them are ASCII). *)
Fixpoint lit (s : string) : jsstring :=
  match s with
  | EmptyString => []
  | String a r => N_of_ascii a :: lit r
  end.

(** The characters a Rocq string cannot hold conveniently. *)
Definition dq : jsstring := [34%N].
Definition nl : jsstring := [10%N].

Fixpoint str_eqb (a b : jsstring) : bool :=
  match a, b with
  | [], [] => true
  | x :: a', y :: b' => N.eqb x y && str_eqb a' b'
  | _, _ => false
  end.

(** [s.replace(/c/g, r)] for a pattern that is one literal character: every
    occurrence of [c] becomes [r], left to right, and the inserted text is
    not scanned again. *)
Fixpoint replaceAllChar (c : char16) (r : jsstring) (s : jsstring) : jsstring :=
  match s with
  | [] => []
  | x :: s' => (if N.eqb x c then r else [x]) ++ replaceAllChar c r s'
  end.

(** [Array.prototype.join] on an array of strings. *)
Fixpoint join (sep : jsstring) (l : list jsstring) : jsstring :=
  match l with
  | [] => []
  | [x] => x
  | x :: l' => x ++ sep ++ join sep l'
  end.

(** The decimal digits of an integer, all of them: what
    [ToZeroPaddedDecimalString] writes for a mathematical integer, and what
    [Number.prototype.toString] writes for a Number that is an integer
    below 2^53. *)
Definition decimal (z : Z) : jsstring :=
  lit (NilZero.string_of_int (Z.to_int z)).

(** ** Numbers *)

(** A Number is a double.  [VNum z] below stands for the Number that the
    integer [z] denotes as a numeric literal does: the double nearest to
    it.  [Number.prototype.toString] prints the shortest decimal that
    reads back as that double, in exponent form from 10^21 (ECMA-262,
    Number::toString). *)
Module Number.
Local Open Scope Z_scope.

(** The double nearest to an integer [a >= 0], ties to the even
    significand; [None] is Infinity.  Below 2^53 every integer is a
    double; above, a double has 53 significant bits. *)
Definition roundToDouble (a : Z) : option Z :=
  if a <? 9007199254740992 then Some a
  else
    let e := Z.log2 a - 52 in
    let q := Z.shiftr a e in
    let r := a - Z.shiftl q e in
    let half := Z.shiftl 1 (e - 1) in
    let q' := if (half <? r) || ((r =? half) && Z.odd q) then q + 1 else q in
    let m := Z.shiftl q' e in
    if m <? 2 ^ 1024 then Some m else None.

(** The decimal [c] reads back as the double [v]. *)
Definition roundTrips (v c : Z) : bool :=
  match roundToDouble c with
  | Some m => m =? v
  | None => false
  end.

(** The shortest decimal that reads back as the double [v]: with one
    significant digit, then two, and so on ([p] is the weight of the last
    digit kept), the multiple of [p] just below or just above [v] that
    reads back as [v], the nearer when both do. *)
Fixpoint shortest (fuel : nat) (v p : Z) : Z :=
  match fuel with
  | O => v
  | S fuel' =>
      let lo := (v / p) * p in
      let hi := lo + p in
      if roundTrips v lo && roundTrips v hi
      then (if v - lo <=? hi - v then lo else hi)
      else if roundTrips v lo then lo
      else if roundTrips v hi then hi
      else shortest fuel' v (p / 10)
  end.

Fixpoint dropZeros (s : jsstring) : jsstring :=
  match s with
  | 48%N :: r => dropZeros r
  | _ => s
  end.

(** The text of the decimal [c > 0]: its digits when there are at most
    21, else the exponent form [d.ddd e+N] of its significant digits. *)
Definition format (c : Z) : jsstring :=
  let D := decimal c in
  let n := length D in
  if Nat.leb n 21 then D
  else
    match rev (dropZeros (rev D)) with
    | d :: rest =>
        d :: (match rest with [] => [] | _ => 46%N :: rest end)
          ++ lit "e+" ++ decimal (Z.of_nat n - 1)
    | [] => D
    end.

(** [Number.prototype.toString] of the Number that [z] denotes. *)
Definition toString (z : Z) : jsstring :=
  if z =? 0 then lit "0"
  else
    let a := Z.abs z in
    (if z <? 0 then lit "-" else [])
      ++ (if a <? 9007199254740992 then decimal a
          else match roundToDouble a with
               | None => lit "Infinity"
               | Some v =>
                   let digits := length (decimal v) in
                   format (shortest digits v (10 ^ (Z.of_nat digits - 1)))
               end).
End Number.

(** ** Values and exceptions *)

(** The members of [Object.prototype], which every object literal inherits:
    the constructor, the [__proto__] accessor (whose getter answers
    [Object.prototype] itself) and the ten methods. *)
Inductive builtin :=
| ObjectConstructor
| ObjectPrototype
| DefineGetter
| DefineSetter
| HasOwnProperty
| LookupGetter
| LookupSetter
| IsPrototypeOf
| PropertyIsEnumerable
| ToStringMethod
| ValueOfMethod
| ToLocaleStringMethod.

(** The values that flow through the module: the primitives a feed item
    holds in its fields ([undefined] stands for a missing property), and the
    built-in objects a property read on an object literal can reach.
    Numbers are the integer-valued ones: [VNum z] is the Number that the
    literal [z] denotes. *)
Inductive value :=
| VUndefined
| VNull
| VBool (b : bool)
| VNum (z : Z)
| VStr (s : jsstring)
| VObject (o : builtin).

Inductive error := TypeError.

Inductive result (A : Type) :=
| Ok (a : A)
| Throw (e : error).
Arguments Ok {A} a.
Arguments Throw {A} e.

Definition bind {A B} (r : result A) (k : A -> result B) : result B :=
  match r with
  | Ok a => k a
  | Throw e => Throw e
  end.

Notation "x <- c ;; k" := (bind c (fun x => k))
  (at level 61, c at next level, right associativity).

(** [ToBoolean]. *)
Definition truthy (v : value) : bool :=
  match v with
  | VUndefined | VNull => false
  | VBool b => b
  | VNum z => negb (Z.eqb z 0)
  | VStr s => match s with [] => false | _ => true end
  | VObject _ => true
  end.

(** [a || b]. *)
Definition js_or (a b : value) : value := if truthy a then a else b.

(** The name a built-in function prints under. *)
Definition builtinName (o : builtin) : jsstring :=
  match o with
  | ObjectConstructor => lit "Object"
  | ObjectPrototype => lit "Object"
  | DefineGetter => lit "__defineGetter__"
  | DefineSetter => lit "__defineSetter__"
  | HasOwnProperty => lit "hasOwnProperty"
  | LookupGetter => lit "__lookupGetter__"
  | LookupSetter => lit "__lookupSetter__"
  | IsPrototypeOf => lit "isPrototypeOf"
  | PropertyIsEnumerable => lit "propertyIsEnumerable"
  | ToStringMethod => lit "toString"
  | ValueOfMethod => lit "valueOf"
  | ToLocaleStringMethod => lit "toLocaleString"
  end.

(** [ToString], as a template literal applies it to [${...}].  A Number
    prints as [Number.prototype.toString] prints it, a built-in function as
    its native-code placeholder (the text Node.js gives),
    [Object.prototype] as a plain object. *)
Definition toString (v : value) : jsstring :=
  match v with
  | VUndefined => lit "undefined"
  | VNull => lit "null"
  | VBool true => lit "true"
  | VBool false => lit "false"
  | VNum z => Number.toString z
  | VStr s => s
  | VObject ObjectPrototype => lit "[object Object]"
  | VObject o => lit "function " ++ builtinName o ++ lit "() { [native code] }"
  end.

(** ** escapeXml *)

(** The chain of five [replace] calls, in the order of the source. *)
Definition escapeString (str : jsstring) : jsstring :=
  replaceAllChar 39%N (lit "&apos;")
    (replaceAllChar 34%N (lit "&quot;")
      (replaceAllChar 62%N (lit "&gt;")
        (replaceAllChar 60%N (lit "&lt;")
          (replaceAllChar 38%N (lit "&amp;") str)))).

(** [escapeXml(str)]: a falsy argument gives [''] before [replace] is
    looked up; a string has [replace]; any other truthy value has no
    [replace] method, and calling it raises. *)
Definition escapeXml (str : value) : result jsstring :=
  if negb (truthy str) then Ok []
  else match str with
       | VStr s => Ok (escapeString s)
       | _ => Throw TypeError
       end.

(** ** getItemTitle *)

(** The code units [\s] matches and [trim] strips: WhiteSpace and
    LineTerminator of ECMA-262 (tab, LF, VT, FF, CR, space, NBSP, the
    Unicode space separators, LS, PS and the byte order mark). *)
Definition isWhite (c : char16) : bool :=
  (N.leb 9 c && N.leb c 13) || N.eqb c 32 || N.eqb c 160 || N.eqb c 5760
  || (N.leb 8192 c && N.leb c 8202) || N.eqb c 8232 || N.eqb c 8233
  || N.eqb c 8239 || N.eqb c 8287 || N.eqb c 12288 || N.eqb c 65279.

(** [s.replace(/\s+/g, ' ')]: the scan emits one space when it enters a
    maximal run of white space ([inRun] says the scan is inside one) and
    copies every other character. *)
Fixpoint replaceWsRuns (inRun : bool) (s : jsstring) : jsstring :=
  match s with
  | [] => []
  | x :: s' =>
      if isWhite x
      then (if inRun then [] else [32%N]) ++ replaceWsRuns true s'
      else x :: replaceWsRuns false s'
  end.

Fixpoint dropWhite (s : jsstring) : jsstring :=
  match s with
  | [] => []
  | x :: s' => if isWhite x then dropWhite s' else s
  end.

(** [String.prototype.trim]. *)
Definition trim (s : jsstring) : jsstring :=
  rev (dropWhite (rev (dropWhite s))).

(** [s.substring(0, n)]. *)
Definition substring0 (n : nat) (s : jsstring) : jsstring := firstn n s.

(** The optional [metadata] object of an item. *)
Record Metadata := {
  likes : value;
  retweets : value;
  replies : value
}.

(** What [new Date(x)] may be given: a primitive, or a Date object, which
    holds a time value in milliseconds ([None] is NaN, the invalid date). *)
Inductive dateArg :=
| DPrim (v : value)
| DDate (tv : option Z).

(** A feed item.  A missing property reads as [VUndefined]; a missing or
    null [metadata] is [None]. *)
Record FeedItem := {
  id : value;
  url : value;
  author : value;
  source : value;
  category : value;
  content : value;
  timestamp : dateArg;
  metadata : option Metadata
}.

Definition getItemTitle (item : FeedItem) : result jsstring :=
  if truthy (content item) then
    match content item with
    | VStr c =>
        let text := trim (replaceWsRuns false c) in
        if Nat.ltb 80 (length text)
        then Ok (substring0 77 text ++ lit "...")
        else Ok text
    | _ => Throw TypeError
    end
  else Ok (toString (source item) ++ lit " post by " ++ toString (author item)).

(** ** getSourceName *)

Fixpoint ownProperty (props : list (jsstring * value)) (key : jsstring)
  : option value :=
  match props with
  | [] => None
  | (k, v) :: props' => if str_eqb k key then Some v else ownProperty props' key
  end.

(** A property read that reaches [Object.prototype]. *)
Definition objectPrototypeGet (key : jsstring) : value :=
  if str_eqb key (lit "constructor") then VObject ObjectConstructor
  else if str_eqb key (lit "__proto__") then VObject ObjectPrototype
  else if str_eqb key (lit "__defineGetter__") then VObject DefineGetter
  else if str_eqb key (lit "__defineSetter__") then VObject DefineSetter
  else if str_eqb key (lit "hasOwnProperty") then VObject HasOwnProperty
  else if str_eqb key (lit "__lookupGetter__") then VObject LookupGetter
  else if str_eqb key (lit "__lookupSetter__") then VObject LookupSetter
  else if str_eqb key (lit "isPrototypeOf") then VObject IsPrototypeOf
  else if str_eqb key (lit "propertyIsEnumerable") then VObject PropertyIsEnumerable
  else if str_eqb key (lit "toString") then VObject ToStringMethod
  else if str_eqb key (lit "valueOf") then VObject ValueOfMethod
  else if str_eqb key (lit "toLocaleString") then VObject ToLocaleStringMethod
  else VUndefined.

(** [obj[key]] on an object literal: its own properties first, then the
    prototype chain, which for a literal is [Object.prototype]. *)
Definition getProperty (props : list (jsstring * value)) (key : jsstring)
  : value :=
  match ownProperty props key with
  | Some v => v
  | None => objectPrototypeGet key
  end.

Definition names : list (jsstring * value) :=
  [ (lit "twitter", VStr (lit "Twitter/X"));
    (lit "reddit", VStr (lit "Reddit"));
    (lit "github", VStr (lit "GitHub")) ].

(** [names[source] || source]; the key of the read is [ToString(source)]. *)
Definition getSourceName (source : value) : value :=
  js_or (getProperty names (toString source)) source.

(** ** toRfc822 *)

(** The calendar arithmetic of ECMA-262 (Day Number and Time within Day,
    Year Number, Month Number, Date Number, Week Day, Hours, Minutes and
    Seconds) on an integral time value in milliseconds since the epoch. *)
Module Calendar.
Local Open Scope Z_scope.

Definition msPerDay : Z := 86400000.
Definition msPerHour : Z := 3600000.
Definition msPerMinute : Z := 60000.
Definition msPerSecond : Z := 1000.

Definition Day (t : Z) : Z := t / msPerDay.

Definition DaysInYear (y : Z) : Z :=
  if negb (y mod 4 =? 0) then 365
  else if negb (y mod 100 =? 0) then 366
  else if negb (y mod 400 =? 0) then 365
  else 366.

Definition DayFromYear (y : Z) : Z :=
  365 * (y - 1970) + (y - 1969) / 4 - (y - 1901) / 100 + (y - 1601) / 400.

(** The largest year whose first day is not after [t]: the year of the
    mean-length estimate, or one of its two neighbours. *)
Definition YearFromTime (t : Z) : Z :=
  let d := Day t in
  let y := 1970 + (400 * d) / 146097 in
  if DayFromYear (y + 1) <=? d then y + 1
  else if DayFromYear y <=? d then y
  else y - 1.

Definition InLeapYear (t : Z) : Z :=
  if DaysInYear (YearFromTime t) =? 366 then 1 else 0.

Definition DayWithinYear (t : Z) : Z := Day t - DayFromYear (YearFromTime t).

Definition MonthFromTime (t : Z) : Z :=
  let d := DayWithinYear t in
  let leap := InLeapYear t in
  if d <? 31 then 0
  else if d <? 59 + leap then 1
  else if d <? 90 + leap then 2
  else if d <? 120 + leap then 3
  else if d <? 151 + leap then 4
  else if d <? 181 + leap then 5
  else if d <? 212 + leap then 6
  else if d <? 243 + leap then 7
  else if d <? 273 + leap then 8
  else if d <? 304 + leap then 9
  else if d <? 334 + leap then 10
  else 11.

Definition DateFromTime (t : Z) : Z :=
  let d := DayWithinYear t in
  let leap := InLeapYear t in
  match MonthFromTime t with
  | 0 => d + 1
  | 1 => d - 30
  | 2 => d - 58 - leap
  | 3 => d - 89 - leap
  | 4 => d - 119 - leap
  | 5 => d - 150 - leap
  | 6 => d - 180 - leap
  | 7 => d - 211 - leap
  | 8 => d - 242 - leap
  | 9 => d - 272 - leap
  | 10 => d - 303 - leap
  | _ => d - 333 - leap
  end.

Definition WeekDay (t : Z) : Z := (Day t + 4) mod 7.
Definition HourFromTime (t : Z) : Z := (t / msPerHour) mod 24.
Definition MinFromTime (t : Z) : Z := (t / msPerMinute) mod 60.
Definition SecFromTime (t : Z) : Z := (t / msPerSecond) mod 60.

(** [TimeClip]: a time value beyond 8.64e15 ms either side is NaN. *)
Definition TimeClip (t : Z) : option Z :=
  if Z.abs t <=? 8640000000000000 then Some t else None.
End Calendar.

(** Table of day names and table of month names of ECMA-262; [nth] reads
    them by index. *)
Definition weekdayNames : list jsstring :=
  [lit "Sun"; lit "Mon"; lit "Tue"; lit "Wed"; lit "Thu"; lit "Fri"; lit "Sat"].

Definition monthNames : list jsstring :=
  [lit "Jan"; lit "Feb"; lit "Mar"; lit "Apr"; lit "May"; lit "Jun";
   lit "Jul"; lit "Aug"; lit "Sep"; lit "Oct"; lit "Nov"; lit "Dec"].

Definition weekdayName (w : Z) : jsstring := nth (Z.to_nat w) weekdayNames (lit "Sat").
Definition monthName (m : Z) : jsstring := nth (Z.to_nat m) monthNames (lit "Dec").

(** [ToZeroPaddedDecimalString(n, minLength)] for [n >= 0]. *)
Definition zeroPad (minLength : nat) (n : Z) : jsstring :=
  let s := decimal n in
  repeat 48%N (minLength - length s) ++ s.

(** [Date.prototype.toUTCString]: ["Invalid Date"] for the NaN time value,
    else [Www, DD Mon YYYY HH:mm:ss GMT].  It raises on no Date object. *)
Definition toUTCString (tv : option Z) : jsstring :=
  match tv with
  | None => lit "Invalid Date"
  | Some t =>
      let yv := Calendar.YearFromTime t in
      let yearSign := if (0 <=? yv)%Z then [] else lit "-" in
      weekdayName (Calendar.WeekDay t) ++ lit ", "
        ++ zeroPad 2 (Calendar.DateFromTime t) ++ lit " "
        ++ monthName (Calendar.MonthFromTime t) ++ lit " "
        ++ yearSign ++ zeroPad 4 (Z.abs yv) ++ lit " "
        ++ zeroPad 2 (Calendar.HourFromTime t) ++ lit ":"
        ++ zeroPad 2 (Calendar.MinFromTime t) ++ lit ":"
        ++ zeroPad 2 (Calendar.SecFromTime t) ++ lit " GMT"
  end.

(** [v === s] against a string literal. *)
Definition strictEqStr (v : value) (s : jsstring) : bool :=
  match v with
  | VStr x => str_eqb x s
  | _ => false
  end.

(** The template literal that [generateItem] returns, as a function of its
    eight interpolated expressions ([link] occurs twice). *)
Definition itemTemplate
    (title link description author category pubDate guid sourceText : jsstring)
  : jsstring :=
  lit "    <item>" ++ nl
    ++ lit "      <title>" ++ title ++ lit "</title>" ++ nl
    ++ lit "      <link>" ++ link ++ lit "</link>" ++ nl
    ++ lit "      <description>" ++ description ++ lit "</description>" ++ nl
    ++ lit "      <author>" ++ author ++ lit "</author>" ++ nl
    ++ lit "      <category>" ++ category ++ lit "</category>" ++ nl
    ++ lit "      <pubDate>" ++ pubDate ++ lit "</pubDate>" ++ nl
    ++ lit "      <guid isPermaLink=" ++ dq ++ lit "false" ++ dq ++ lit ">"
    ++ guid ++ lit "</guid>" ++ nl
    ++ lit "      <source url=" ++ dq ++ link ++ dq ++ lit ">"
    ++ sourceText ++ lit "</source>" ++ nl
    ++ lit "    </item>".

(** The template literal that [generateRssFeed] returns. *)
Definition feedTemplate
    (title link description lastBuildDate itemsXml : jsstring) : jsstring :=
  lit "<?xml version=" ++ dq ++ lit "1.0" ++ dq ++ lit " encoding="
    ++ dq ++ lit "UTF-8" ++ dq ++ lit "?>" ++ nl
    ++ lit "<rss version=" ++ dq ++ lit "2.0" ++ dq ++ lit " xmlns:atom="
    ++ dq ++ lit "http://www.w3.org/2005/Atom" ++ dq ++ lit ">" ++ nl
    ++ lit "  <channel>" ++ nl
    ++ lit "    <title>" ++ title ++ lit "</title>" ++ nl
    ++ lit "    <link>" ++ link ++ lit "</link>" ++ nl
    ++ lit "    <description>" ++ description ++ lit "</description>" ++ nl
    ++ lit "    <language>en-us</language>" ++ nl
    ++ lit "    <lastBuildDate>" ++ lastBuildDate ++ lit "</lastBuildDate>" ++ nl
    ++ lit "    <generator>Factory AI Feed Scraper</generator>" ++ nl
    ++ lit "    <ttl>10</ttl>" ++ nl
    ++ itemsXml ++ nl
    ++ lit "  </channel>" ++ nl
    ++ lit "</rss>".

(** The [options] object of [generateRssFeed]. *)
Record FeedOptions := {
  title : value;
  link : value;
  description : value
}.

(** The object literal [{}]: every property reads as [undefined]. *)
Definition emptyOptions : FeedOptions :=
  {| title := VUndefined; link := VUndefined; description := VUndefined |}.

(** [items.map(f)] where [f] may raise: the elements are visited in order
    and the first exception ends the call. *)
Fixpoint mapM {A B} (f : A -> result B) (l : list A) : result (list B) :=
  match l with
  | [] => Ok []
  | x :: l' =>
      y <- f x ;;
      ys <- mapM f l' ;;
      Ok (y :: ys)
  end.

Section Host.
(** [Date.parse], whose grammar beyond the ISO format is left to the
    engine: the time value of a date string, [None] (NaN) when the string
    is not a date. *)
Variable parse : jsstring -> option Z.

(** The clock [new Date()] reads, in milliseconds since the epoch. *)
Variable now : Z.

(** [new Date(x)]: a Date object gives its time value; a string is
    parsed; any other primitive is converted to a number and clipped; a
    built-in object converts to its string first.  No case raises. *)
Definition newDate (x : dateArg) : option Z :=
  match x with
  | DDate tv => tv
  | DPrim (VStr s) => parse s
  | DPrim VUndefined => None
  | DPrim VNull => Some 0%Z
  | DPrim (VBool b) => Some (if b then 1%Z else 0%Z)
  | DPrim (VNum z) => Calendar.TimeClip z
  | DPrim (VObject o) => parse (toString (VObject o))
  end.

Definition toRfc822 (date : dateArg) : jsstring :=
  let d := newDate date in
  toUTCString d.

(** ** generateItem *)

Definition generateItem (item : FeedItem) : result jsstring :=
  t <- getItemTitle item ;;
  title <- escapeXml (VStr t) ;;
  link <- escapeXml (url item) ;;
  author' <- escapeXml (author item) ;;
  let source' := getSourceName (source item) in
  category' <- (if truthy (category item) then escapeXml (category item)
                else Ok (lit "uncategorized")) ;;
  let pubDate := toRfc822 (timestamp item) in
  guid <- escapeXml (id item) ;;
  let description := lit "<![CDATA[" in
  let description :=
    description ++ lit "<p><strong>Author:</strong> "
      ++ toString (author item) ++ lit "</p>" in
  let description :=
    description ++ lit "<p><strong>Source:</strong> "
      ++ toString source' ++ lit "</p>" in
  let description :=
    if truthy (category item)
    then description ++ lit "<p><strong>Category:</strong> "
           ++ toString (category item) ++ lit "</p>"
    else description in
  let description := description ++ lit "<hr/>" in
  let description :=
    description ++ lit "<p>"
      ++ toString (js_or (content item) (VStr [])) ++ lit "</p>" in
  let description :=
    if strictEqStr (source item) (lit "twitter") then
      match metadata item with
      | Some m =>
          let description := description ++ lit "<hr/>" in
          let description := description ++ lit "<p><small>" in
          let description :=
            description ++ lit "Likes: "
              ++ toString (js_or (likes m) (VNum 0)) ++ lit " | " in
          let description :=
            description ++ lit "Retweets: "
              ++ toString (js_or (retweets m) (VNum 0)) ++ lit " | " in
          let description :=
            description ++ lit "Replies: "
              ++ toString (js_or (replies m) (VNum 0)) in
          description ++ lit "</small></p>"
      | None => description
      end
    else description in
  let description := description ++ lit "]]>" in
  sourceText <- escapeXml source' ;;
  Ok (itemTemplate title link description author' category' pubDate guid
        sourceText).

(** ** generateRssFeed *)

(** [generateRssFeed(items, options = {})]: [None] is the omitted second
    argument, which the default parameter replaces by [{}]. *)
Definition generateRssFeed (items : list FeedItem)
    (options : option FeedOptions) : result jsstring :=
  let options := match options with Some o => o | None => emptyOptions end in
  title' <-
    escapeXml (js_or (title options) (VStr (lit "Factory AI Social Feed"))) ;;
  link' <-
    escapeXml (js_or (link options) (VStr (lit "https://factory.ai"))) ;;
  description' <-
    escapeXml (js_or (description options)
      (VStr (lit "Aggregated mentions from Twitter, Reddit, and GitHub"))) ;;
  let lastBuildDate := toRfc822 (DDate (Some now)) in
  fragments <- mapM generateItem items ;;
  let itemsXml := join nl fragments in
  Ok (feedTemplate title' link' description' lastBuildDate itemsXml).
End Host.

(** ** The specification's vocabulary *)

(** The five reserved XML characters: [&], [<], [>], the double quote and
    the apostrophe. *)
Definition reserved (c : char16) : bool :=
  N.eqb c 38 || N.eqb c 60 || N.eqb c 62 || N.eqb c 34 || N.eqb c 39.

(** The entity the specification assigns to a character: one of the five
    entities for a reserved character, the character itself otherwise. *)
Definition entity (c : char16) : jsstring :=
  if N.eqb c 38 then lit "&amp;"
  else if N.eqb c 60 then lit "&lt;"
  else if N.eqb c 62 then lit "&gt;"
  else if N.eqb c 34 then lit "&quot;"
  else if N.eqb c 39 then lit "&apos;"
  else [c].

(** Escaping a string and escaping the result again. *)
Definition escapeTwice (s : jsstring) : result jsstring :=
  e <- escapeXml (VStr s) ;;
  escapeXml (VStr e).

(** A value [escapeXml] accepts: a string, or anything falsy. *)
Definition stringOrFalsy (v : value) : bool :=
  match v with
  | VStr _ => true
  | _ => negb (truthy v)
  end.

Definition consHead (x : char16) (ws : list jsstring) : list jsstring :=
  match ws with
  | w :: ws' => (x :: w) :: ws'
  | [] => [[x]]
  end.

Definition startsWhite (s : jsstring) : bool :=
  match s with
  | x :: _ => isWhite x
  | [] => true
  end.

(** The words of a text: its maximal runs of characters that are not white
    space, in order. *)
Fixpoint words (s : jsstring) : list jsstring :=
  match s with
  | [] => []
  | x :: s' =>
      if isWhite x then words s'
      else if startsWhite s' then [x] :: words s'
      else consHead x (words s')
  end.

(** A word: not empty, and free of white space. *)
Definition wordOk (w : jsstring) : Prop :=
  w <> [] /\ forallb (fun c => negb (isWhite c)) w = true.

(** The specification's collapsed text: every run of white space becomes
    one space and none is left at either end, that is, the words of the
    text with single spaces between them. *)
Definition collapsed (s : jsstring) : jsstring := join [32%N] (words s).

Fixpoint isPrefix (p s : jsstring) : bool :=
  match p, s with
  | [], _ => true
  | x :: p', y :: s' => N.eqb x y && isPrefix p' s'
  | _ :: _, [] => false
  end.

(** [p] occurs somewhere in [s]. *)
Fixpoint isInfix (p s : jsstring) : bool :=
  isPrefix p s ||
  match s with
  | [] => false
  | _ :: s' => isInfix p s'
  end.

(** The Twitter line of a description, as the specification words it. *)
Definition twitterBlock (l r p : jsstring) : jsstring :=
  lit "<hr/><p><small>Likes: " ++ l ++ lit " | Retweets: " ++ r
    ++ lit " | Replies: " ++ p ++ lit "</small></p>".

(** The CDATA description, as the specification lays it out: the Author
    paragraph, the Source paragraph, the Category paragraph (or nothing),
    a rule, the content paragraph and the Twitter block (or nothing). *)
Definition descriptionXml
    (authorText sourceText categoryParagraph contentText block : jsstring)
  : jsstring :=
  lit "<![CDATA[<p><strong>Author:</strong> " ++ authorText
    ++ lit "</p><p><strong>Source:</strong> " ++ sourceText ++ lit "</p>"
    ++ categoryParagraph
    ++ lit "<hr/><p>" ++ contentText ++ lit "</p>"
    ++ block ++ lit "]]>".

(** The items [generateItem] renders without raising: every field it
    escapes, and the display name of the source, is a string or falsy. *)
Definition renders (item : FeedItem) : bool :=
  stringOrFalsy (content item) && stringOrFalsy (url item)
  && stringOrFalsy (author item) && stringOrFalsy (category item)
  && stringOrFalsy (id item) && stringOrFalsy (getSourceName (source item)).

(** The text [escapeXml] answers when it does not raise. *)
Definition escaped (v : value) : jsstring :=
  match v with
  | VStr s => escapeString s
  | _ => []
  end.

(** A count of the Twitter block: the field, or 0 when it is absent (or
    otherwise falsy). *)
Definition countText (v : value) : jsstring :=
  if truthy v then toString v else lit "0".

(** The title, Category paragraph, category element and Twitter block of an
    item, each as the source computes it. *)
Definition titleText (item : FeedItem) : jsstring :=
  match getItemTitle item with
  | Ok t => escapeString t
  | Throw _ => []
  end.

Definition categoryParagraph (item : FeedItem) : jsstring :=
  if truthy (category item)
  then lit "<p><strong>Category:</strong> " ++ toString (category item)
         ++ lit "</p>"
  else [].

Definition categoryText (item : FeedItem) : jsstring :=
  if truthy (category item) then escaped (category item)
  else lit "uncategorized".

Definition metadataBlock (item : FeedItem) : jsstring :=
  if strictEqStr (source item) (lit "twitter") then
    match metadata item with
    | Some m =>
        twitterBlock (countText (likes m)) (countText (retweets m))
          (countText (replies m))
    | None => []
    end
  else [].

(** An item fragment seen through the four places the specification
    describes case by case (the title [t], the Category paragraph [cp], the
    category element [ct] and the Twitter block [block]); the other
    interpolated texts are those of the item. *)
Definition itemView (parse : jsstring -> option Z) (item : FeedItem)
    (t cp ct block : jsstring) : jsstring :=
  itemTemplate t (escaped (url item))
    (descriptionXml (toString (author item))
       (toString (getSourceName (source item)))
       cp
       (toString (js_or (content item) (VStr [])))
       block)
    (escaped (author item)) ct
    (toRfc822 parse (timestamp item))
    (escaped (id item)) (escaped (getSourceName (source item))).

Definition isDigit (c : char16) : bool := N.leb 48 c && N.leb c 57.

(** ** Sample items *)

(** A Reddit item whose content has leading, trailing and repeated white
    space. *)
Definition redditItem : FeedItem :=
  {| id := VStr (lit "r-1"); url := VStr (lit "https://example.org/r/1");
     author := VStr (lit "ann"); source := VStr (lit "reddit");
     category := VStr (lit "news & views");
     content := VStr (lit "  Check out   our new" ++ nl ++ lit "release! ");
     timestamp := DDate (Some 1727881445000%Z); metadata := None |}.

(** The same item without content and without category. *)
Definition bareItem : FeedItem :=
  {| id := VStr (lit "r-2"); url := VStr (lit "https://example.org/r/2");
     author := VStr (lit "ann"); source := VStr (lit "reddit");
     category := VUndefined; content := VNull;
     timestamp := DDate (Some 1727881445000%Z); metadata := None |}.

(** A tweet whose metadata is [{likes: 5}]. *)
Definition twitterItem : FeedItem :=
  {| id := VStr (lit "t-1"); url := VStr (lit "https://x.com/ann/status/1");
     author := VStr (lit "ann"); source := VStr (lit "twitter");
     category := VStr (lit "launch"); content := VStr (lit "Shipped <today>");
     timestamp := DDate (Some 1727881445000%Z);
     metadata := Some {| likes := VNum 5; retweets := VUndefined;
                         replies := VUndefined |} |}.


(** An item whose content is a space, a newline and a tab. *)
Definition blankItem : FeedItem :=
  {| id := VStr (lit "g-2"); url := VStr (lit "https://example.org/g/2");
     author := VStr (lit "bob"); source := VStr (lit "github");
     category := VUndefined; content := VStr [32%N; 10%N; 9%N];
     timestamp := DDate (Some 1727881445000%Z); metadata := None |}.

(** A [Date.parse] that accepts no string.  The sample items carry Date
    objects, which [new Date] copies without parsing. *)
Definition noDates : jsstring -> option Z := fun _ => None.

(** Three items with distinct ids, and the fragments they render to. *)
Definition sampleItems : list FeedItem := [twitterItem; redditItem; bareItem].

Definition fragmentOf (parse : jsstring -> option Z) (item : FeedItem)
  : jsstring :=
  itemView parse item (titleText item) (categoryParagraph item)
    (categoryText item) (metadataBlock item).

(** Options that are present but falsy. *)
Definition falsyOptions : FeedOptions :=
  {| title := VStr []; link := VNull; description := VNum 0 |}.

(** ** Vocabulary of the further properties *)

(** The text after an ampersand opens one of the five entities. *)
Definition startsEntity (r : jsstring) : bool :=
  isPrefix (lit "amp;") r || isPrefix (lit "lt;") r || isPrefix (lit "gt;") r
  || isPrefix (lit "quot;") r || isPrefix (lit "apos;") r.

(** Text that is safe as XML character data and as an attribute value:
    every ampersand opens one of the five entities, and no other reserved
    character occurs. *)
Fixpoint wellEscaped (s : jsstring) : bool :=
  match s with
  | [] => true
  | c :: r =>
      (if N.eqb c 38 then startsEntity r else negb (reserved c))
      && wellEscaped r
  end.

(** A reader of escaped text: each of the five entities gives its
    character back, any other character stands for itself.  [skip] counts
    the characters of an entity still to pass over. *)
Fixpoint unescapeFrom (skip : nat) (s : jsstring) : jsstring :=
  match s with
  | [] => []
  | c :: r =>
      match skip with
      | S k => unescapeFrom k r
      | O =>
          if N.eqb c 38 then
            if isPrefix (lit "amp;") r then 38%N :: unescapeFrom 4 r
            else if isPrefix (lit "lt;") r then 60%N :: unescapeFrom 3 r
            else if isPrefix (lit "gt;") r then 62%N :: unescapeFrom 3 r
            else if isPrefix (lit "quot;") r then 34%N :: unescapeFrom 5 r
            else if isPrefix (lit "apos;") r then 39%N :: unescapeFrom 5 r
            else c :: unescapeFrom 0 r
          else c :: unescapeFrom 0 r
      end
  end.

Definition unescapeXml (s : jsstring) : jsstring := unescapeFrom 0 s.

(** Tidy text: every white-space character in it is a plain space, and
    none follows another ([prev] says the character before was white
    space, so tidy text after [true] does not begin with white space). *)
Fixpoint tidy (prev : bool) (s : jsstring) : bool :=
  match s with
  | [] => true
  | x :: r =>
      if isWhite x then negb prev && N.eqb x 32 && tidy true r
      else tidy false r
  end.

(** An item with its content replaced. *)
Definition withContent (item : FeedItem) (c : value) : FeedItem :=
  {| id := id item; url := url item; author := author item;
     source := source item; category := category item; content := c;
     timestamp := timestamp item; metadata := metadata item |}.

(** An item with its timestamp and metadata replaced. *)
Definition withTimestamp (item : FeedItem) (ts : dateArg)
    (m : option Metadata) : FeedItem :=
  {| id := id item; url := url item; author := author item;
     source := source item; category := category item;
     content := content item; timestamp := ts; metadata := m |}.

(** The values a read of [names] can give besides [undefined]. *)
Definition namesValues : list value :=
  [VStr (lit "Twitter/X"); VStr (lit "Reddit"); VStr (lit "GitHub");
   VObject ObjectConstructor; VObject ObjectPrototype; VObject DefineGetter;
   VObject DefineSetter; VObject HasOwnProperty; VObject LookupGetter;
   VObject LookupSetter; VObject IsPrototypeOf; VObject PropertyIsEnumerable;
   VObject ToStringMethod; VObject ValueOfMethod; VObject ToLocaleStringMethod].

(** The options and items [generateRssFeed] renders without raising. *)
Definition feedRenders (o : FeedOptions) (items : list FeedItem) : bool :=
  stringOrFalsy (title o) && stringOrFalsy (link o)
  && stringOrFalsy (description o) && forallb renders items.

(** The document of options and items that render. *)
Definition feedOf (parse : jsstring -> option Z) (now : Z) (o : FeedOptions)
    (items : list FeedItem) : jsstring :=
  feedTemplate
    (escaped (js_or (title o) (VStr (lit "Factory AI Social Feed"))))
    (escaped (js_or (link o) (VStr (lit "https://factory.ai"))))
    (escaped (js_or (description o)
       (VStr (lit "Aggregated mentions from Twitter, Reddit, and GitHub"))))
    (toUTCString (Some now))
    (join nl (map (fragmentOf parse) items)).

(** [p] ends [s]. *)
Definition isSuffix (p s : jsstring) : bool := isPrefix (rev p) (rev s).

(** The lines every feed opens with, up to the channel title, and the
    lines it closes with. *)
Definition feedHead : jsstring :=
  lit "<?xml version=" ++ dq ++ lit "1.0" ++ dq ++ lit " encoding="
    ++ dq ++ lit "UTF-8" ++ dq ++ lit "?>" ++ nl
    ++ lit "<rss version=" ++ dq ++ lit "2.0" ++ dq ++ lit " xmlns:atom="
    ++ dq ++ lit "http://www.w3.org/2005/Atom" ++ dq ++ lit ">" ++ nl
    ++ lit "  <channel>" ++ nl
    ++ lit "    <title>".

Definition feedTail : jsstring :=
  nl ++ lit "  </channel>" ++ nl ++ lit "</rss>".

(** Days of the year before the first of a month (0 is January), in a
    common year ([leap] 0) or a leap year ([leap] 1). *)
Definition daysBeforeMonth (m leap : Z) : Z :=
  match m with
  | 0 => 0 | 1 => 31 | 2 => 59 + leap | 3 => 90 + leap | 4 => 120 + leap
  | 5 => 151 + leap | 6 => 181 + leap | 7 => 212 + leap | 8 => 243 + leap
  | 9 => 273 + leap | 10 => 304 + leap | _ => 334 + leap
  end%Z.

(** The second since the epoch that a civil date and time of day denote. *)
Definition secondsOf (y m d h mi sec : Z) : Z :=
  let leap := if (Calendar.DaysInYear y =? 366)%Z then 1%Z else 0%Z in
  ((((Calendar.DayFromYear y + daysBeforeMonth m leap + (d - 1)) * 24 + h) * 60
     + mi) * 60 + sec)%Z.


(** ** Arguments that are not objects *)

(** A function of the module applied to an argument that may be [null] or
    [undefined] ([None]): its first step reads a property of the argument
    ([item.content]), which raises on those two. *)
Definition onItem {A} (f : FeedItem -> result A) (x : option FeedItem)
  : result A :=
  match x with
  | Some item => f item
  | None => Throw TypeError
  end.



(** The options object the body of [generateRssFeed] works on. *)
Definition givenOptions (options : option FeedOptions) : FeedOptions :=
  match options with
  | Some o => o
  | None => emptyOptions
  end.


(** ** The feed document, as the specification fixes it *)

(** The document from the XML declaration to the [ttl] line, byte for
    byte, around the channel title, link, description and build date. *)
Definition channelOpen (t l d date : jsstring) : jsstring :=
  lit "<?xml version=" ++ dq ++ lit "1.0" ++ dq ++ lit " encoding="
    ++ dq ++ lit "UTF-8" ++ dq ++ lit "?>" ++ nl
    ++ lit "<rss version=" ++ dq ++ lit "2.0" ++ dq ++ lit " xmlns:atom="
    ++ dq ++ lit "http://www.w3.org/2005/Atom" ++ dq ++ lit ">" ++ nl
    ++ lit "  <channel>" ++ nl
    ++ lit "    <title>" ++ t ++ lit "</title>" ++ nl
    ++ lit "    <link>" ++ l ++ lit "</link>" ++ nl
    ++ lit "    <description>" ++ d ++ lit "</description>" ++ nl
    ++ lit "    <language>en-us</language>" ++ nl
    ++ lit "    <lastBuildDate>" ++ date ++ lit "</lastBuildDate>" ++ nl
    ++ lit "    <generator>Factory AI Feed Scraper</generator>" ++ nl
    ++ lit "    <ttl>10</ttl>" ++ nl.

Definition channelClose : jsstring :=
  lit "  </channel>" ++ nl ++ lit "</rss>".

(** The lines of the items: every fragment followed by a newline, in
    order; one empty line when there is no fragment. *)
Definition itemLines (fragments : list jsstring) : jsstring :=
  match fragments with
  | [] => nl
  | _ => flat_map (fun x => x ++ nl) fragments
  end.

(** ** The date of RFC 822 *)

Definition rfcDayNames : list jsstring :=
  [lit "Sun"; lit "Mon"; lit "Tue"; lit "Wed"; lit "Thu"; lit "Fri"; lit "Sat"].

Definition rfcMonthNames : list jsstring :=
  [lit "Jan"; lit "Feb"; lit "Mar"; lit "Apr"; lit "May"; lit "Jun";
   lit "Jul"; lit "Aug"; lit "Sep"; lit "Oct"; lit "Nov"; lit "Dec"].

Definition digitOf (n : Z) : char16 := (48 + Z.to_N (n mod 10))%N.

Definition twoDigits (n : Z) : jsstring :=
  [digitOf (n / 10); digitOf n].

Definition fourDigits (n : Z) : jsstring :=
  [digitOf (n / 1000); digitOf (n / 100); digitOf (n / 10); digitOf n].

(** The date and time of RFC 822 with the four-digit year of RFC 1123, in
    the zone GMT: [Www, DD Mon YYYY HH:mm:ss GMT] for a day name, a day of
    the month from 1 to 31, a month name, a year from 0000 to 9999 and a
    time of day. *)
Definition rfc1123Date (s : jsstring) : Prop :=
  exists wd dd mon yyyy hh mm ss : Z,
    (0 <= wd < 7 /\ 1 <= dd <= 31 /\ 0 <= mon < 12 /\ 0 <= yyyy <= 9999 /\
     0 <= hh < 24 /\ 0 <= mm < 60 /\ 0 <= ss < 60)%Z /\
    s = nth (Z.to_nat wd) rfcDayNames [] ++ lit ", " ++ twoDigits dd
          ++ lit " " ++ nth (Z.to_nat mon) rfcMonthNames [] ++ lit " "
          ++ fourDigits yyyy ++ lit " " ++ twoDigits hh ++ lit ":"
          ++ twoDigits mm ++ lit ":" ++ twoDigits ss ++ lit " GMT".

(** The time values of the years 0000 to 9999: from the first millisecond
    of 1 January 0000 to the last of 31 December 9999. *)
Definition fourDigitYears (t : Z) : Prop :=
  (-62167219200000 <= t <= 253402300799999)%Z.


(** An item without content whose author has 100 characters. *)
Definition longAuthorItem : FeedItem :=
  {| id := VStr (lit "r-3"); url := VStr (lit "https://example.org/r/3");
     author := VStr (repeat 97%N 100); source := VStr (lit "reddit");
     category := VUndefined; content := VUndefined;
     timestamp := DDate (Some 1727881445000%Z); metadata := None |}.

(** ** Proof steps *)

(** Case on the computation [c] that a [bind] runs first: a raised
    exception ends the goal, a result goes on. *)
Ltac bind_case c :=
  destruct c as [?|[]]; [cbn [bind] | reflexivity].

Create HintDb calendar.

(** ** Strings: basic facts *)

Lemma str_eqb_eq (a b : jsstring) : str_eqb a b = true <-> a = b.
Proof.
  revert b; induction a as [|x a IH]; intros [|y b]; simpl;
    try (split; [discriminate | discriminate]); [tauto|].
  rewrite andb_true_iff, N.eqb_eq, IH. split.
  - intros [-> ->]; reflexivity.
  - intros E; injection E; auto.
Qed.

Lemma replaceAllChar_flat_map (c : char16) (r s : jsstring) :
  replaceAllChar c r s = flat_map (fun x => if N.eqb x c then r else [x]) s.
Proof. induction s as [|x s IH]; simpl; [reflexivity | now rewrite IH]. Qed.

Lemma entity_chain (x : char16) :
  replaceAllChar 39%N (lit "&apos;")
    (replaceAllChar 34%N (lit "&quot;")
      (replaceAllChar 62%N (lit "&gt;")
        (replaceAllChar 60%N (lit "&lt;")
          (replaceAllChar 38%N (lit "&amp;") [x])))) = entity x.
Proof.
  unfold entity.
  destruct (N.eqb_spec x 38) as [->|H1]; [reflexivity|].
  destruct (N.eqb_spec x 60) as [->|H2]; [reflexivity|].
  destruct (N.eqb_spec x 62) as [->|H3]; [reflexivity|].
  destruct (N.eqb_spec x 34) as [->|H4]; [reflexivity|].
  destruct (N.eqb_spec x 39) as [->|H5]; [reflexivity|].
  apply N.eqb_neq in H1, H2, H3, H4, H5.
  cbn [replaceAllChar app]. rewrite H1. cbn [replaceAllChar app]. rewrite H2.
  cbn [replaceAllChar app]. rewrite H3. cbn [replaceAllChar app]. rewrite H4.
  cbn [replaceAllChar app]. rewrite H5. reflexivity.
Qed.

Lemma replaceAllChar_app (c : char16) (r a b : jsstring) :
  replaceAllChar c r (a ++ b) = replaceAllChar c r a ++ replaceAllChar c r b.
Proof.
  rewrite !replaceAllChar_flat_map. apply flat_map_app.
Qed.

(** The five passes together act character by character. *)
Lemma escapeString_entity (s : jsstring) : escapeString s = flat_map entity s.
Proof.
  induction s as [|x s IH]; [reflexivity|].
  change (x :: s) with ([x] ++ s).
  unfold escapeString in *. rewrite !replaceAllChar_app, IH, entity_chain.
  reflexivity.
Qed.

Lemma entity_not_reserved (c : char16) : reserved c = false -> entity c = [c].
Proof.
  unfold reserved, entity. intros H.
  apply orb_false_iff in H. destruct H as [H H5].
  apply orb_false_iff in H. destruct H as [H H4].
  apply orb_false_iff in H. destruct H as [H H3].
  apply orb_false_iff in H. destruct H as [H1 H2].
  now rewrite H1, H2, H3, H4, H5.
Qed.

Lemma entity_reserved (c : char16) :
  reserved c = true ->
  existsb reserved (entity c) = true /\ 1 < length (entity c).
Proof.
  unfold reserved, entity. intros H.
  destruct (N.eqb c 38); [split; [reflexivity | simpl; lia]|].
  destruct (N.eqb c 60); [split; [reflexivity | simpl; lia]|].
  destruct (N.eqb c 62); [split; [reflexivity | simpl; lia]|].
  destruct (N.eqb c 34); [split; [reflexivity | simpl; lia]|].
  destruct (N.eqb c 39); [split; [reflexivity | simpl; lia]|].
  discriminate.
Qed.

Lemma escapeString_clean (s : jsstring) :
  existsb reserved s = false -> escapeString s = s.
Proof.
  rewrite escapeString_entity.
  induction s as [|x s IH]; simpl; [reflexivity|].
  intros H; apply orb_false_iff in H; destruct H as [Hx Hs].
  now rewrite (entity_not_reserved _ Hx), IH.
Qed.

Lemma escapeString_length (s : jsstring) :
  length s <= length (escapeString s) /\
  (existsb reserved s = true -> length s < length (escapeString s)).
Proof.
  rewrite escapeString_entity.
  induction s as [|x s [IH1 IH2]]; simpl; [split; [lia | discriminate]|].
  rewrite length_app.
  destruct (reserved x) eqn:Hx; simpl.
  - destruct (entity_reserved _ Hx) as [_ L]. split; [lia | intros _; lia].
  - rewrite (entity_not_reserved _ Hx); simpl. split; [lia|].
    intros H; specialize (IH2 H); lia.
Qed.

Lemma escapeString_keeps_reserved (s : jsstring) :
  existsb reserved s = true -> existsb reserved (escapeString s) = true.
Proof.
  rewrite escapeString_entity.
  induction s as [|x s IH]; simpl; [discriminate|].
  rewrite existsb_app. destruct (reserved x) eqn:Hx; simpl.
  - intros _. now destruct (entity_reserved _ Hx) as [-> _].
  - intros H. rewrite (IH H). apply orb_true_r.
Qed.

Lemma no_reserved_iff (s : jsstring) :
  existsb reserved s = false <-> (forall c, In c s -> reserved c = false).
Proof.
  split.
  - intros H c Hc. destruct (reserved c) eqn:E; [|reflexivity].
    assert (existsb reserved s = true) by (apply existsb_exists; eauto).
    congruence.
  - intros H. destruct (existsb reserved s) eqn:E; [|reflexivity].
    apply existsb_exists in E. destruct E as (c & Hc & Hr).
    rewrite (H c Hc) in Hr. discriminate.
Qed.

Lemma escapeTwice_eq (s : jsstring) :
  escapeTwice s = Ok (escapeString (escapeString s)) /\
  escapeXml (VStr s) = Ok (escapeString s).
Proof.
  unfold escapeTwice, escapeXml.
  destruct s as [|x s]; [split; reflexivity|].
  cbn [truthy negb bind].
  destruct (escapeString (x :: s)) as [|y e] eqn:E.
  - pose proof (proj1 (escapeString_length (x :: s))) as L.
    rewrite E in L. simpl in L. lia.
  - split; reflexivity.
Qed.

(** ** escapeXml *)

(** C2.  [escapeXml] answers the empty string on every falsy argument
    ([null], [undefined] and [''] among them) and raises nothing there; on
    every string it answers the string in which each of the five reserved
    characters is replaced by its entity and every other character is kept,
    which is what the five passes [&], [<], [>], double quote, apostrophe
    compute in that order. *)
Theorem escapeXml_spec (v : value) :
  (truthy v = false -> escapeXml v = Ok []) /\
  (forall s, v = VStr s ->
     escapeXml v =
       Ok (replaceAllChar 39%N (lit "&apos;")
            (replaceAllChar 34%N (lit "&quot;")
              (replaceAllChar 62%N (lit "&gt;")
                (replaceAllChar 60%N (lit "&lt;")
                  (replaceAllChar 38%N (lit "&amp;") s))))) /\
     escapeXml v = Ok (flat_map entity s)) /\
  escapeXml VNull = Ok [] /\ escapeXml VUndefined = Ok [] /\
  escapeXml (VStr []) = Ok [] /\
  entity 38%N = lit "&amp;" /\ entity 60%N = lit "&lt;" /\
  entity 62%N = lit "&gt;" /\ entity 34%N = lit "&quot;" /\
  entity 39%N = lit "&apos;" /\
  (forall c, reserved c = false -> entity c = [c]).
Proof.
  split; [|split].
  - intros H. unfold escapeXml. now rewrite H.
  - intros s ->. rewrite <- escapeString_entity.
    split; apply (proj2 (escapeTwice_eq s)).
  - repeat split; try reflexivity. apply entity_not_reserved.
Qed.

Lemma escapeXml_spec_witness :
  escapeXml (VNum 0) = Ok [] /\
  escapeXml (VStr (lit "a<b & 'c'")) = Ok (lit "a&lt;b &amp; &apos;c&apos;").
Proof.
  split.
  - apply (proj1 (escapeXml_spec (VNum 0))). reflexivity.
  - apply (proj2 (proj1 (proj2 (escapeXml_spec (VStr (lit "a<b & 'c'")))) _ eq_refl)).
Defined.

(** A truthy argument that is not a string has no [replace] method. *)
Lemma escapeXml_throws (v : value) :
  stringOrFalsy v = false -> escapeXml v = Throw TypeError.
Proof.
  destruct v as [| |[]|z|s|o]; simpl; try discriminate; try reflexivity.
  unfold escapeXml; simpl. destruct (Z.eqb z 0); [discriminate | reflexivity].
Qed.

Lemma escapeXml_ok (v : value) :
  stringOrFalsy v = true ->
  escapeXml v = Ok (match v with VStr s => escapeString s | _ => [] end).
Proof.
  destruct v as [| |[]|z|s|o]; simpl; try discriminate; try reflexivity.
  - unfold escapeXml; simpl. intros ->. reflexivity.
  - intros _. apply (proj2 (escapeTwice_eq s)).
Qed.

(** C5.  Escaping twice differs from escaping once on every string that
    holds an ampersand (the ampersand of [&amp;] becomes [&amp;amp;]);
    a string without any of the five reserved characters is left as it is;
    and escaping twice equals escaping once exactly on the strings without
    reserved characters. *)
Theorem escapeXml_idempotent_iff (s : jsstring) :
  (In 38%N s -> escapeTwice s <> escapeXml (VStr s)) /\
  ((forall c, In c s -> reserved c = false) -> escapeXml (VStr s) = Ok s) /\
  (escapeTwice s = escapeXml (VStr s) <->
   (forall c, In c s -> reserved c = false)) /\
  escapeTwice (lit "&") = Ok (lit "&amp;amp;").
Proof.
  destruct (escapeTwice_eq s) as [E2 E1]. rewrite E2, E1.
  assert (D : existsb reserved s = true ->
              escapeString (escapeString s) <> escapeString s).
  { intros H Heq. apply escapeString_keeps_reserved in H.
    apply (proj2 (escapeString_length _)) in H. rewrite Heq in H. lia. }
  split; [|split; [|split]].
  - intros Hin Heq. injection Heq as Heq. apply D; [|exact Heq].
    apply existsb_exists. exists 38%N. split; [exact Hin | reflexivity].
  - intros H. apply no_reserved_iff in H. now rewrite escapeString_clean.
  - rewrite <- no_reserved_iff. split.
    + intros Heq. injection Heq as Heq.
      destruct (existsb reserved s) eqn:E; [|reflexivity].
      exfalso. now apply D.
    + intros H. now rewrite !(escapeString_clean _ H).
  - reflexivity.
Qed.

Lemma escapeXml_idempotent_iff_witness :
  escapeTwice (lit "R&D") <> escapeXml (VStr (lit "R&D")) /\
  escapeXml (VStr (lit "plain text")) = Ok (lit "plain text").
Proof.
  split.
  - apply (proj1 (escapeXml_idempotent_iff (lit "R&D"))).
    simpl. right. left. reflexivity.
  - apply (proj1 (proj2 (escapeXml_idempotent_iff (lit "plain text")))).
    apply no_reserved_iff. reflexivity.
Defined.

(** ** getSourceName *)

Lemma str_eqb_neq (a b : jsstring) : a <> b -> str_eqb a b = false.
Proof.
  intros H. destruct (str_eqb a b) eqn:E; [|reflexivity].
  apply str_eqb_eq in E. contradiction.
Qed.

(** The three known identifiers map to their display names. *)
Lemma getSourceName_known :
  getSourceName (VStr (lit "twitter")) = VStr (lit "Twitter/X") /\
  getSourceName (VStr (lit "reddit")) = VStr (lit "Reddit") /\
  getSourceName (VStr (lit "github")) = VStr (lit "GitHub").
Proof. repeat split. Qed.

(** X9.  A string that names neither a known source nor a member of
    [Object.prototype] is answered unchanged. *)
Lemma getSourceName_passthrough (s : jsstring) :
  s <> lit "twitter" -> s <> lit "reddit" -> s <> lit "github" ->
  objectPrototypeGet s = VUndefined ->
  getSourceName (VStr s) = VStr s.
Proof.
  intros H1 H2 H3 H4.
  unfold getSourceName, getProperty, names; cbn [toString ownProperty].
  rewrite !str_eqb_neq by (intros E; symmetry in E; contradiction).
  rewrite H4. reflexivity.
Qed.

Lemma getSourceName_passthrough_mastodon :
  getSourceName (VStr (lit "mastodon")) = VStr (lit "mastodon").
Proof.
  apply getSourceName_passthrough; try discriminate. reflexivity.
Defined.

(** Every name of a member of [Object.prototype] is answered by that
    member, not by the name. *)
Lemma getSourceName_inherited :
  Forall (fun key => exists o, getSourceName (VStr key) = VObject o)
    [lit "constructor"; lit "__proto__"; lit "__defineGetter__";
     lit "__defineSetter__"; lit "hasOwnProperty"; lit "__lookupGetter__";
     lit "__lookupSetter__"; lit "isPrototypeOf"; lit "propertyIsEnumerable";
     lit "toString"; lit "valueOf"; lit "toLocaleString"].
Proof. repeat constructor; eexists; reflexivity. Qed.

(** C3.  The lookup [names[source]] also finds what the object literal
    inherits: for the string ["constructor"] it finds the [Object]
    function, which is truthy, so [getSourceName] answers that function
    and not the string; [escapeXml] then raises on it, and so does
    [generateItem] for every item whose source is ["constructor"]. *)
Theorem getSourceName_constructor :
  getSourceName (VStr (lit "constructor")) = VObject ObjectConstructor /\
  getSourceName (VStr (lit "constructor")) <> VStr (lit "constructor") /\
  escapeXml (getSourceName (VStr (lit "constructor"))) = Throw TypeError /\
  forall parse i u a c t ts m,
    generateItem parse
      {| id := i; url := u; author := a; source := VStr (lit "constructor");
         category := c; content := t; timestamp := ts; metadata := m |}
    = Throw TypeError.
Proof.
  split; [reflexivity|]. split; [discriminate|]. split; [reflexivity|].
  intros parse i u a c t ts m. unfold generateItem.
  cbn [source url author id category content].
  bind_case (getItemTitle {| id := i; url := u; author := a;
               source := VStr (lit "constructor"); category := c;
               content := t; timestamp := ts; metadata := m |}).
  match goal with |- context [escapeXml (VStr ?x)] => bind_case (escapeXml (VStr x)) end.
  bind_case (escapeXml u). bind_case (escapeXml a).
  bind_case (if truthy c then escapeXml c else Ok (lit "uncategorized")).
  bind_case (escapeXml i). reflexivity.
Qed.

(** ** getItemTitle *)

Lemma words_ok (s : jsstring) : Forall wordOk (words s).
Proof.
  induction s as [|x s IH]; simpl; [constructor|].
  destruct (isWhite x) eqn:Hx; [exact IH|].
  destruct (startsWhite s).
  - constructor; [|exact IH]. split; [discriminate | simpl; now rewrite Hx].
  - destruct IH as [|w ws [Hw1 Hw2] IH]; simpl.
    + constructor; [|constructor]. split; [discriminate | simpl; now rewrite Hx].
    + constructor; [|exact IH]. split; [discriminate | simpl; now rewrite Hx, Hw2].
Qed.

Lemma words_nonempty (s : jsstring) : startsWhite s = false -> words s <> [].
Proof.
  destruct s as [|x s]; simpl; [discriminate|]. intros ->.
  destruct (startsWhite s); [discriminate|].
  destruct (words s); discriminate.
Qed.

(** The words keep every character that is not white space, in order, and
    nothing else. *)
Lemma words_concat (s : jsstring) :
  concat (words s) = filter (fun c => negb (isWhite c)) s.
Proof.
  induction s as [|x s IH]; simpl; [reflexivity|].
  destruct (isWhite x) eqn:Hx; simpl; [exact IH|].
  destruct (startsWhite s); simpl; [now rewrite IH|].
  rewrite <- IH. destruct (words s); reflexivity.
Qed.

Lemma join_consHead (x : char16) (ws : list jsstring) :
  ws <> [] -> join [32%N] (consHead x ws) = x :: join [32%N] ws.
Proof.
  destruct ws as [|w [|w' ws]]; [contradiction | reflexivity | reflexivity].
Qed.

Lemma replaceWsRuns_false (s : jsstring) :
  replaceWsRuns false s =
  (if startsWhite s then match s with [] => [] | _ => [32%N] end else [])
    ++ replaceWsRuns true s.
Proof.
  destruct s as [|x s]; simpl; [reflexivity|].
  destruct (isWhite x); reflexivity.
Qed.

(** The scan, once past leading white space, yields the collapsed text
    followed by at most one space. *)
Lemma replaceWsRuns_true (s : jsstring) :
  exists b, (b = [] \/ b = [32%N]) /\ (words s = [] -> b = []) /\
            replaceWsRuns true s = collapsed s ++ b.
Proof.
  unfold collapsed.
  induction s as [|x s (b & Hb & Hnil & IH)]; simpl.
  - exists []. auto.
  - destruct (isWhite x) eqn:Hx; simpl.
    + exists b. auto.
    + rewrite replaceWsRuns_false, IH.
      destruct (startsWhite s) eqn:Hs.
      * destruct s as [|y s].
        { simpl in *. exists []. rewrite (Hnil eq_refl). auto. }
        destruct (words (y :: s)) as [|w ws] eqn:Hw.
        { exists [32%N]. rewrite (Hnil eq_refl). simpl.
          split; [auto|]. split; [discriminate | reflexivity]. }
        exists b. split; [exact Hb|]. split; [discriminate|]. reflexivity.
      * exists b. split; [exact Hb|].
        pose proof (words_nonempty s Hs) as Hne.
        rewrite (join_consHead x _ Hne).
        split; [|reflexivity].
        destruct (words s); [contradiction | discriminate].
Qed.

Lemma dropWhite_white (a r : jsstring) :
  forallb isWhite a = true -> dropWhite (a ++ r) = dropWhite r.
Proof.
  induction a as [|x a IH]; simpl; [reflexivity|].
  intros H; apply andb_true_iff in H; destruct H as [-> H]. auto.
Qed.

Lemma join_first (ws : list jsstring) :
  Forall wordOk ws -> ws <> [] ->
  exists x u, join [32%N] ws = x :: u /\ isWhite x = false.
Proof.
  intros [|w ws' [Hw1 Hw2] _]; [contradiction|]. intros _.
  destruct w as [|x w]; [contradiction|].
  simpl in Hw2. apply andb_true_iff in Hw2. destruct Hw2 as [Hx _].
  apply negb_true_iff in Hx.
  destruct ws'; simpl; eauto.
Qed.

Lemma join_last (ws : list jsstring) :
  Forall wordOk ws -> ws <> [] ->
  exists u y, join [32%N] ws = u ++ [y] /\ isWhite y = false.
Proof.
  induction 1 as [|w ws [Hw1 Hw2] Hws IH]; [contradiction|]. intros _.
  destruct ws as [|w' ws'].
  - exists (removelast w), (last w 32%N). split.
    + simpl. now apply app_removelast_last.
    + rewrite forallb_forall in Hw2.
      apply negb_true_iff, Hw2.
      destruct w as [|x w]; [contradiction|].
      apply (@exists_last _ (x :: w)) in Hw1. destruct Hw1 as (u & y & E).
      rewrite E, last_last. apply in_or_app. right. left. reflexivity.
  - destruct IH as (u & y & E & Hy); [discriminate|].
    exists (w ++ [32%N] ++ u), y. split; [|exact Hy].
    change (join [32%N] (w :: w' :: ws'))
      with (w ++ [32%N] ++ join [32%N] (w' :: ws')).
    rewrite E, <- !app_assoc. reflexivity.
Qed.

Lemma trim_sandwich (a u b : jsstring) :
  forallb isWhite a = true -> forallb isWhite b = true ->
  (u = [] \/ (exists x u', u = x :: u' /\ isWhite x = false) /\
             (exists u' y, u = u' ++ [y] /\ isWhite y = false)) ->
  trim (a ++ u ++ b) = u.
Proof.
  intros Ha Hb Hu. unfold trim. rewrite (dropWhite_white a _ Ha).
  destruct Hu as [->|[(x & u' & E & Hx) (u'' & y & E' & Hy)]].
  - simpl. rewrite <- (app_nil_r b), (dropWhite_white b [] Hb). reflexivity.
  - assert (D : dropWhite (u ++ b) = u ++ b).
    { rewrite E. simpl. now rewrite Hx. }
    rewrite D, rev_app_distr, dropWhite_white.
    + rewrite E', rev_app_distr. simpl. rewrite Hy.
      change (y :: rev u'') with (rev [y] ++ rev u'').
      rewrite <- rev_app_distr, rev_involutive. reflexivity.
    + rewrite forallb_forall in *. intros c Hc. apply Hb.
      now apply in_rev.
Qed.

(** What the source computes, [replace(/\s+/g, ' ')] and then [trim], is
    the collapsed text of the specification. *)
Lemma trim_replaceWsRuns (s : jsstring) :
  trim (replaceWsRuns false s) = collapsed s.
Proof.
  rewrite replaceWsRuns_false.
  destruct (replaceWsRuns_true s) as (b & Hb & Hnil & ->).
  apply trim_sandwich.
  - destruct (startsWhite s); [destruct s|]; reflexivity.
  - destruct Hb as [->| ->]; reflexivity.
  - unfold collapsed. destruct (words s) as [|w ws] eqn:Hw; [left; reflexivity|].
    right. pose proof (words_ok s) as Hok. rewrite Hw in Hok. split.
    + apply join_first; [exact Hok | discriminate].
    + apply join_last; [exact Hok | discriminate].
Qed.

Lemma getItemTitle_string (item : FeedItem) (c : jsstring) :
  content item = VStr c -> c <> [] ->
  getItemTitle item =
    Ok (if Nat.ltb 80 (length (collapsed c))
        then firstn 77 (collapsed c) ++ lit "..."
        else collapsed c).
Proof.
  intros Hc Hne. unfold getItemTitle. rewrite Hc.
  destruct c as [|x c]; [contradiction|]. cbn [truthy].
  rewrite trim_replaceWsRuns. unfold substring0.
  destruct (Nat.ltb 80 _); reflexivity.
Qed.

(** C1.  For an item whose content is a non-empty string, [getItemTitle]
    answers the content with every run of white space collapsed to one
    space and trimmed when that text has at most 80 characters, and its
    first 77 characters followed by ["..."], 80 characters in all, when it
    has more.  For an item whose content is absent it answers
    ["{source} post by {author}"] from the raw source and author. *)
Theorem getItemTitle_spec (item : FeedItem) :
  (forall c, content item = VStr c -> c <> [] ->
     collapsed c = trim (replaceWsRuns false c) /\
     getItemTitle item =
       Ok (if Nat.ltb 80 (length (collapsed c))
           then firstn 77 (collapsed c) ++ lit "..."
           else collapsed c) /\
     (80 < length (collapsed c) ->
      length (firstn 77 (collapsed c) ++ lit "...") = 80)) /\
  (truthy (content item) = false ->
     getItemTitle item =
       Ok (toString (source item) ++ lit " post by " ++ toString (author item)) /\
     forall s a, source item = VStr s -> author item = VStr a ->
       getItemTitle item = Ok (s ++ lit " post by " ++ a)).
Proof.
  split.
  - intros c Hc Hne. split; [now rewrite trim_replaceWsRuns|]. split.
    + now apply getItemTitle_string.
    + intros L. rewrite length_app, length_firstn.
      change (length (lit "...")) with 3. lia.
  - intros Hf. unfold getItemTitle. rewrite Hf. split; [reflexivity|].
    intros s a -> ->. reflexivity.
Qed.

Lemma getItemTitle_spec_witness :
  getItemTitle redditItem = Ok (lit "Check out our new release!") /\
  getItemTitle bareItem = Ok (lit "reddit post by ann").
Proof.
  split.
  - apply (proj1 (proj2 (proj1 (getItemTitle_spec redditItem) _ eq_refl
                           ltac:(discriminate)))).
  - apply (proj2 (proj2 (getItemTitle_spec bareItem) eq_refl) _ _
             eq_refl eq_refl).
Defined.

(** The two examples of the specification: a short content is kept, a
    content of 100 characters is cut to 77 and the ellipsis. *)
Example getItemTitle_short :
  forall item, content item = VStr (lit "Check out our new release!") ->
  getItemTitle item = Ok (lit "Check out our new release!").
Proof. intros item H. unfold getItemTitle. rewrite H. reflexivity. Qed.

Example getItemTitle_long :
  forall item, content item = VStr (repeat 120%N 100) ->
  getItemTitle item = Ok (repeat 120%N 77 ++ lit "...").
Proof. intros item H. unfold getItemTitle. rewrite H. reflexivity. Qed.

(** ** generateItem *)

Lemma escapeXml_string (s : jsstring) : escapeXml (VStr s) = Ok (escapeString s).
Proof. apply (proj2 (escapeTwice_eq s)). Qed.

Lemma getItemTitle_ok (item : FeedItem) :
  stringOrFalsy (content item) = true ->
  exists t, getItemTitle item = Ok t /\ titleText item = escapeString t.
Proof.
  unfold titleText, getItemTitle. intros H.
  destruct (content item) as [| |[]|z|c|o]; simpl in *; try discriminate; eauto.
  - destruct (Z.eqb z 0); simpl in *; [eauto | discriminate].
  - destruct c; [eauto|]. destruct (Nat.ltb 80 _); eauto.
Qed.

Lemma getItemTitle_throws (item : FeedItem) :
  stringOrFalsy (content item) = false -> getItemTitle item = Throw TypeError.
Proof.
  unfold getItemTitle. intros H.
  destruct (content item) as [| |[]|z|c|o]; simpl in *; try discriminate;
    try reflexivity.
  destruct (Z.eqb z 0); simpl in *; [discriminate | reflexivity].
Qed.

Lemma js_or_zero (v : value) : toString (js_or v (VNum 0)) = countText v.
Proof. unfold js_or, countText. destruct (truthy v); reflexivity. Qed.

(** An item that [renders] gives the fragment laid out by [itemView]; any
    other item makes [generateItem] raise. *)
Lemma generateItem_eq (parse : jsstring -> option Z) (item : FeedItem) :
  generateItem parse item =
  if renders item
  then Ok (itemView parse item (titleText item) (categoryParagraph item)
             (categoryText item) (metadataBlock item))
  else Throw TypeError.
Proof.
  unfold renders, generateItem.
  destruct (stringOrFalsy (content item)) eqn:Hc; cbn [andb];
    [|now rewrite (getItemTitle_throws _ Hc)].
  destruct (getItemTitle_ok _ Hc) as (t & -> & Ht). cbn [bind].
  rewrite escapeXml_string. cbn [bind].
  destruct (stringOrFalsy (url item)) eqn:Hu; cbn [andb];
    [rewrite (escapeXml_ok _ Hu) | now rewrite (escapeXml_throws _ Hu)].
  cbn [bind].
  destruct (stringOrFalsy (author item)) eqn:Ha; cbn [andb];
    [rewrite (escapeXml_ok _ Ha) | now rewrite (escapeXml_throws _ Ha)].
  cbn [bind].
  destruct (stringOrFalsy (category item)) eqn:Hk; cbn [andb].
  2:{ rewrite (escapeXml_throws _ Hk).
      destruct (category item) as [| |[]|z|c|o]; simpl in *; try discriminate;
        try reflexivity.
      destruct (Z.eqb z 0); simpl in *; [discriminate | reflexivity]. }
  assert (Ek : (if truthy (category item) then escapeXml (category item)
                else Ok (lit "uncategorized")) = Ok (categoryText item)).
  { unfold categoryText. rewrite (escapeXml_ok _ Hk).
    destruct (truthy (category item)); reflexivity. }
  rewrite Ek. cbn [bind].
  destruct (stringOrFalsy (id item)) eqn:Hi; cbn [andb];
    [rewrite (escapeXml_ok _ Hi) | now rewrite (escapeXml_throws _ Hi)].
  cbn [bind].
  destruct (stringOrFalsy (getSourceName (source item))) eqn:Hs;
    [rewrite (escapeXml_ok _ Hs) | now rewrite (escapeXml_throws _ Hs)].
  cbn [bind]. unfold itemView, descriptionXml, categoryParagraph, metadataBlock.
  rewrite Ht. do 2 f_equal.
  destruct (truthy (category item)), (strictEqStr (source item) (lit "twitter"));
    [destruct (metadata item) | | destruct (metadata item) | ];
    unfold twitterBlock; rewrite ?js_or_zero, <- ?app_assoc; reflexivity.
Qed.

Lemma strictEqStr_eq (v : value) (s : jsstring) :
  strictEqStr v s = true <-> v = VStr s.
Proof.
  destruct v; simpl; try (split; discriminate).
  rewrite str_eqb_eq. split; [now intros -> | now intros [= ->]].
Qed.




(** C8.  The description ends with the Twitter block exactly when the
    source is ["twitter"] and the metadata is present: then the block,
    [Likes: .. | Retweets: .. | Replies: ..] with 0 for every absent
    count, stands between the content paragraph and the end of the CDATA
    section; otherwise nothing stands there.  Metadata [{likes: 5}] gives
    [Likes: 5 | Retweets: 0 | Replies: 0]. *)
Theorem generateItem_twitter_block (parse : jsstring -> option Z)
    (item : FeedItem) :
  renders item = true ->
  (forall m, source item = VStr (lit "twitter") -> metadata item = Some m ->
     generateItem parse item =
       Ok (itemView parse item (titleText item) (categoryParagraph item)
             (categoryText item)
             (lit "<hr/><p><small>Likes: " ++ countText (likes m)
                ++ lit " | Retweets: " ++ countText (retweets m)
                ++ lit " | Replies: " ++ countText (replies m)
                ++ lit "</small></p>"))) /\
  (source item <> VStr (lit "twitter") \/ metadata item = None ->
     generateItem parse item =
       Ok (itemView parse item (titleText item) (categoryParagraph item)
             (categoryText item) [])) /\
  (forall v, truthy v = false -> countText v = lit "0") /\
  (forall m, likes m = VNum 5 -> retweets m = VUndefined ->
     replies m = VUndefined ->
     lit "Likes: " ++ countText (likes m) ++ lit " | Retweets: "
       ++ countText (retweets m) ++ lit " | Replies: " ++ countText (replies m)
     = lit "Likes: 5 | Retweets: 0 | Replies: 0").
Proof.
  intros R. rewrite generateItem_eq, R. unfold metadataBlock.
  split; [|split; [|split]].
  - intros m Hs ->. apply strictEqStr_eq in Hs. rewrite Hs. reflexivity.
  - intros [Hs| ->].
    + destruct (strictEqStr (source item) (lit "twitter")) eqn:E;
        [apply strictEqStr_eq in E; contradiction | reflexivity].
    + destruct (strictEqStr (source item) (lit "twitter")); reflexivity.
  - intros v Hv. unfold countText. now rewrite Hv.
  - intros m -> -> ->. reflexivity.
Qed.

Lemma generateItem_twitter_block_witness :
  (exists xml,
     generateItem noDates twitterItem = Ok xml /\
     isInfix (lit "</p><hr/><p><small>Likes: 5 | Retweets: 0 | Replies: 0</small></p>]]></description>")
       xml = true) /\
  generateItem noDates redditItem =
    Ok (itemView noDates redditItem (titleText redditItem)
          (categoryParagraph redditItem) (categoryText redditItem) []).
Proof.
  split.
  - eexists. split.
    + apply (proj1 (generateItem_twitter_block noDates twitterItem eq_refl)
               _ eq_refl eq_refl).
    + vm_compute. reflexivity.
  - apply (proj1 (proj2 (generateItem_twitter_block noDates redditItem eq_refl))).
    left. discriminate.
Defined.

Lemma words_white (c : jsstring) : forallb isWhite c = true -> words c = [].
Proof.
  induction c as [|x c IH]; simpl; [reflexivity|].
  intros H; apply andb_true_iff in H; destruct H as [-> H]. auto.
Qed.

(** C10.  A content that is a non-empty string of white space only is
    truthy, so the fallback is not taken: the title is the empty string and
    the fragment opens with an empty [<title>] element. *)
Theorem getItemTitle_whitespace (parse : jsstring -> option Z)
    (item : FeedItem) (c : jsstring) :
  content item = VStr c -> c <> [] -> forallb isWhite c = true ->
  getItemTitle item = Ok [] /\
  getItemTitle item <>
    Ok (toString (source item) ++ lit " post by " ++ toString (author item)) /\
  (renders item = true ->
   generateItem parse item =
     Ok (itemView parse item [] (categoryParagraph item) (categoryText item)
           (metadataBlock item)) /\
   isPrefix (lit "    <item>" ++ nl ++ lit "      <title></title>" ++ nl)
     (itemView parse item [] (categoryParagraph item) (categoryText item)
        (metadataBlock item)) = true).
Proof.
  intros Hc Hne Hw.
  assert (T : getItemTitle item = Ok []).
  { rewrite (getItemTitle_string item c Hc Hne).
    unfold collapsed. rewrite (words_white c Hw). reflexivity. }
  split; [exact T|]. split.
  - rewrite T. intros E. injection E as E.
    symmetry in E. apply app_eq_nil in E. destruct E as [_ E].
    discriminate E.
  - intros R. split; [|reflexivity].
    rewrite generateItem_eq, R. unfold titleText. rewrite T. reflexivity.
Qed.

Lemma getItemTitle_whitespace_witness :
  getItemTitle blankItem = Ok [] /\
  generateItem noDates blankItem =
    Ok (itemView noDates blankItem [] (categoryParagraph blankItem)
          (categoryText blankItem) (metadataBlock blankItem)).
Proof.
  pose proof (getItemTitle_whitespace noDates blankItem [32%N; 10%N; 9%N]
                eq_refl ltac:(discriminate) eq_refl) as H.
  split; [exact (proj1 H) | exact (proj1 (proj2 (proj2 H) eq_refl))].
Defined.

(** ** toRfc822 *)

Module CalendarFacts.
Import Calendar.
Local Open Scope Z_scope.

Lemma DayFromYear_succ (y : Z) :
  DayFromYear (y + 1) = DayFromYear y + DaysInYear y.
Proof.
  unfold DayFromYear, DaysInYear.
  destruct (Z.eqb_spec (y mod 4) 0), (Z.eqb_spec (y mod 100) 0),
    (Z.eqb_spec (y mod 400) 0); cbn [negb];
    Z.to_euclidean_division_equations; lia.
Qed.

Lemma DayFromYear_mono (y y' : Z) : y <= y' -> DayFromYear y <= DayFromYear y'.
Proof.
  unfold DayFromYear. intros H. Z.to_euclidean_division_equations; lia.
Qed.

(** [YearFromTime t] is a year whose first day is not after [t] ... *)
Lemma YearFromTime_bracket (t : Z) :
  DayFromYear (YearFromTime t) <= Day t < DayFromYear (YearFromTime t + 1).
Proof.
  unfold YearFromTime. cbv zeta. generalize (Day t) as d. intros d.
  destruct (Z.leb_spec (DayFromYear (1970 + 400 * d / 146097 + 1)) d) as [H|H].
  - split; [exact H|]. unfold DayFromYear in *.
    Z.to_euclidean_division_equations; lia.
  - destruct (Z.leb_spec (DayFromYear (1970 + 400 * d / 146097)) d) as [H'|H'].
    + split; assumption.
    + replace (1970 + 400 * d / 146097 - 1 + 1)
        with (1970 + 400 * d / 146097) by lia.
      split; [|exact H']. unfold DayFromYear in *.
      Z.to_euclidean_division_equations; lia.
Qed.

(** ... and the largest such year, as ECMA-262 defines it. *)
Lemma YearFromTime_largest (t y : Z) :
  DayFromYear y <= Day t -> y <= YearFromTime t.
Proof.
  intros H. destruct (YearFromTime_bracket t) as [_ B].
  destruct (Z.le_gt_cases y (YearFromTime t)) as [L|G]; [exact L|].
  assert (M : DayFromYear (YearFromTime t + 1) <= DayFromYear y)
    by (apply DayFromYear_mono; lia).
  lia.
Qed.

Lemma DayWithinYear_range (t : Z) :
  0 <= DayWithinYear t < 365 + InLeapYear t /\
  (InLeapYear t = 0 \/ InLeapYear t = 1).
Proof.
  unfold DayWithinYear, InLeapYear.
  pose proof (YearFromTime_bracket t) as B.
  rewrite DayFromYear_succ in B.
  assert (D : DaysInYear (YearFromTime t) = 365 \/
              DaysInYear (YearFromTime t) = 366).
  { unfold DaysInYear.
    destruct (negb _); [auto|]. destruct (negb _); [auto|].
    destruct (negb _); auto. }
  destruct D as [D|D]; rewrite D in *; cbn [Z.eqb Pos.eqb]; lia.
Qed.

Lemma MonthFromTime_range (t : Z) : 0 <= MonthFromTime t <= 11.
Proof.
  unfold MonthFromTime. cbv zeta.
  repeat match goal with
         | |- context [if ?b then _ else _] => destruct b
         end; lia.
Qed.

Lemma DateFromTime_range (t : Z) : 1 <= DateFromTime t <= 31.
Proof.
  destruct (DayWithinYear_range t) as [R L].
  unfold DateFromTime, MonthFromTime. cbv zeta.
  repeat match goal with
         | |- context [if (?a <? ?b) then _ else _] =>
             destruct (Z.ltb_spec a b)
         end; cbv iota; lia.
Qed.

Lemma WeekDay_range (t : Z) : 0 <= WeekDay t < 7.
Proof. unfold WeekDay. apply Z.mod_pos_bound. lia. Qed.

Lemma HourFromTime_range (t : Z) : 0 <= HourFromTime t < 24.
Proof. unfold HourFromTime. apply Z.mod_pos_bound. lia. Qed.

Lemma MinFromTime_range (t : Z) : 0 <= MinFromTime t < 60.
Proof. unfold MinFromTime. apply Z.mod_pos_bound. lia. Qed.

Lemma SecFromTime_range (t : Z) : 0 <= SecFromTime t < 60.
Proof. unfold SecFromTime. apply Z.mod_pos_bound. lia. Qed.

(** The clock fields and the day number give the time value back, up to
    its milliseconds. *)
Lemma time_fields (t : Z) :
  t = Day t * msPerDay + HourFromTime t * msPerHour
      + MinFromTime t * msPerMinute + SecFromTime t * msPerSecond
      + t mod msPerSecond.
Proof.
  unfold Day, HourFromTime, MinFromTime, SecFromTime, msPerDay, msPerHour,
    msPerMinute, msPerSecond.
  Z.to_euclidean_division_equations; lia.
Qed.
End CalendarFacts.

Lemma string_of_uint_digits (u : Decimal.uint) :
  forallb isDigit (lit (NilEmpty.string_of_uint u)) = true.
Proof. induction u; simpl; auto. Qed.

Lemma decimal_digits (z : Z) : (0 <= z)%Z -> forallb isDigit (decimal z) = true.
Proof.
  unfold decimal. destruct z as [|p|p]; [reflexivity | | lia]. intros _.
  cbn [Z.to_int NilZero.string_of_int]. unfold NilZero.string_of_uint.
  destruct (Pos.to_uint p) eqn:E; try reflexivity;
    rewrite <- E; apply string_of_uint_digits.
Qed.

(** Every character of a printed integer is a digit or the minus sign. *)
Lemma decimal_chars (z : Z) :
  forallb (fun c => isDigit c || N.eqb c 45) (decimal z) = true.
Proof.
  assert (W : forall s, forallb isDigit s = true ->
                        forallb (fun c => isDigit c || N.eqb c 45) s = true).
  { intros s H. rewrite forallb_forall in *. intros c Hc. now rewrite (H c Hc). }
  destruct z as [|p|p]; [reflexivity | apply W, decimal_digits; lia |].
  change (decimal (Z.neg p)) with (lit "-" ++ decimal (Z.pos p)).
  rewrite forallb_app. cbn [lit forallb]. apply W, decimal_digits. lia.
Qed.

Lemma zeroPad2_length (n : Z) : (0 <= n < 100)%Z -> length (zeroPad 2 n) = 2.
Proof.
  intros H.
  assert (T : forallb (fun k => Nat.eqb (length (zeroPad 2 (Z.of_nat k))) 2)
                (seq 0 100) = true) by (vm_compute; reflexivity).
  rewrite forallb_forall in T. specialize (T (Z.to_nat n)).
  rewrite Z2Nat.id in T by lia. apply Nat.eqb_eq, T, in_seq. lia.
Qed.

Lemma weekdayName_in (w : Z) : (0 <= w < 7)%Z -> In (weekdayName w) weekdayNames.
Proof.
  intros H. unfold weekdayName. apply nth_In.
  change (length weekdayNames) with 7. lia.
Qed.

Lemma monthName_in (m : Z) : (0 <= m <= 11)%Z -> In (monthName m) monthNames.
Proof.
  intros H. unfold monthName. apply nth_In.
  change (length monthNames) with 12. lia.
Qed.

#[local] Hint Resolve weekdayName_in monthName_in
  CalendarFacts.WeekDay_range CalendarFacts.MonthFromTime_range : calendar.

(** Known instants: the epoch, a leap day, the last millisecond of 1969,
    and the two ends of the range of time values. *)
Example toUTCString_samples :
  toUTCString (Some 0%Z) = lit "Thu, 01 Jan 1970 00:00:00 GMT" /\
  toUTCString (Some 951782400000%Z) = lit "Tue, 29 Feb 2000 00:00:00 GMT" /\
  toUTCString (Some (-1)%Z) = lit "Wed, 31 Dec 1969 23:59:59 GMT" /\
  toUTCString (Some 8640000000000000%Z) = lit "Sat, 13 Sep 275760 00:00:00 GMT" /\
  toUTCString (Some (-8640000000000000)%Z)
    = lit "Tue, 20 Apr -271821 00:00:00 GMT".
Proof. repeat split; vm_compute; reflexivity. Qed.

(** ** generateRssFeed *)

Lemma mapM_Forall2 {A B} (f : A -> result B) (l : list A) (ys : list B) :
  mapM f l = Ok ys <-> Forall2 (fun x y => f x = Ok y) l ys.
Proof.
  revert ys. induction l as [|x l IH]; intros ys; simpl.
  - split.
    + intros [= <-]. constructor.
    + intros H. inversion H. reflexivity.
  - split.
    + destruct (f x) as [y|e] eqn:Fx; [|discriminate]. cbn [bind].
      destruct (mapM f l) as [ys'|e] eqn:M; [|discriminate]. cbn [bind].
      intros [= <-]. constructor; [exact Fx | now apply IH].
    + intros H. inversion H as [|x' y l' ys' Fx Hl]; subst.
      rewrite Fx. cbn [bind]. apply IH in Hl. rewrite Hl. reflexivity.
Qed.

(** An item that raises is not skipped: the whole map raises. *)
Lemma mapM_throw {A B} (f : A -> result B) (l : list A) :
  Exists (fun x => f x = Throw TypeError) l -> mapM f l = Throw TypeError.
Proof.
  induction 1 as [x l Fx|x l _ IH]; simpl.
  - now rewrite Fx.
  - destruct (f x) as [y|[]]; [|reflexivity]. cbn [bind]. now rewrite IH.
Qed.

Lemma escapeXml_default (v : value) (d : jsstring) :
  stringOrFalsy v = true ->
  escapeXml (js_or v (VStr d)) = Ok (escaped (js_or v (VStr d))).
Proof.
  intros H. apply escapeXml_ok. unfold js_or.
  destruct (truthy v); [exact H | reflexivity].
Qed.

Lemma generateRssFeed_throw (parse : jsstring -> option Z) (now : Z)
    (items : list FeedItem) (options : option FeedOptions) :
  Exists (fun it => generateItem parse it = Throw TypeError) items ->
  generateRssFeed parse now items options = Throw TypeError.
Proof.
  intros H. unfold generateRssFeed. cbv zeta.
  do 3 match goal with
       | |- bind (escapeXml ?v) _ = _ => bind_case (escapeXml v)
       end.
  now rewrite (mapM_throw _ _ H).
Qed.

Lemma toUTCString_no_lt (tv : option Z) :
  forallb (fun c => negb (N.eqb c 60)) (toUTCString tv) = true.
Proof.
  destruct tv as [t|]; [|reflexivity].
  assert (D : forall z, forallb (fun c => negb (N.eqb c 60)) (decimal z) = true).
  { intros z. pose proof (decimal_chars z) as H. rewrite forallb_forall in *.
    intros c Hc. specialize (H c Hc). unfold isDigit in H.
    destruct (N.eqb_spec c 60) as [->|]; [discriminate H | reflexivity]. }
  assert (P : forall k z, forallb (fun c => negb (N.eqb c 60)) (zeroPad k z) = true).
  { intros k z. unfold zeroPad. cbv zeta. rewrite forallb_app.
    apply andb_true_iff. split; [|apply D].
    apply forallb_forall. intros c Hc. apply repeat_spec in Hc. now subst. }
  assert (T : forall (l : list jsstring) d n,
             forallb (forallb (fun c => negb (N.eqb c 60))) (d :: l) = true ->
             forallb (fun c => negb (N.eqb c 60)) (nth n l d) = true).
  { intros l d n H. cbn [forallb] in H. apply andb_true_iff in H.
    destruct H as [Hd Hl]. rewrite forallb_forall in Hl.
    destruct (nth_in_or_default n l d) as [I| ->]; auto. }
  unfold toUTCString. cbv zeta. rewrite !forallb_app.
  unfold weekdayName, monthName. rewrite !P, !T by reflexivity.
  destruct (0 <=? _)%Z; reflexivity.
Qed.

Lemma isInfix_skip (p m r : jsstring) :
  forallb (fun c => negb (N.eqb c 60)) m = true ->
  isInfix (60%N :: p) (m ++ r) = isInfix (60%N :: p) r.
Proof.
  induction m as [|x m IH]; [reflexivity|]. cbn [forallb].
  intros H; apply andb_true_iff in H; destruct H as [Hx Hm].
  change ((x :: m) ++ r) with (x :: (m ++ r)). cbn [isInfix isPrefix].
  rewrite (IH Hm). apply negb_true_iff in Hx. rewrite N.eqb_sym in Hx.
  now rewrite Hx.
Qed.

(** C7.  With no items and the options [{}] the feed is, byte for byte, the
    envelope with the default title, link and description, the fixed
    language, generator and ttl, and the build date of the clock; it holds
    no [<item>].  Omitting the options gives the same document, and an
    option that is falsy is replaced by its default. *)
Theorem generateRssFeed_empty (parse : jsstring -> option Z) (now : Z) :
  generateRssFeed parse now [] (Some emptyOptions) =
    Ok (lit "<?xml version=" ++ dq ++ lit "1.0" ++ dq ++ lit " encoding="
          ++ dq ++ lit "UTF-8" ++ dq ++ lit "?>" ++ nl
        ++ lit "<rss version=" ++ dq ++ lit "2.0" ++ dq ++ lit " xmlns:atom="
          ++ dq ++ lit "http://www.w3.org/2005/Atom" ++ dq ++ lit ">" ++ nl
        ++ lit "  <channel>" ++ nl
        ++ lit "    <title>Factory AI Social Feed</title>" ++ nl
        ++ lit "    <link>https://factory.ai</link>" ++ nl
        ++ lit "    <description>Aggregated mentions from Twitter, Reddit, and GitHub</description>" ++ nl
        ++ lit "    <language>en-us</language>" ++ nl
        ++ lit "    <lastBuildDate>" ++ toUTCString (Some now)
          ++ lit "</lastBuildDate>" ++ nl
        ++ lit "    <generator>Factory AI Feed Scraper</generator>" ++ nl
        ++ lit "    <ttl>10</ttl>" ++ nl
        ++ nl
        ++ lit "  </channel>" ++ nl
        ++ lit "</rss>") /\
  generateRssFeed parse now [] None =
    generateRssFeed parse now [] (Some emptyOptions) /\
  (forall xml, generateRssFeed parse now [] (Some emptyOptions) = Ok xml ->
     isInfix (lit "<item>") xml = false) /\
  (forall items o,
     (truthy (title o) = false ->
      generateRssFeed parse now items (Some o) =
      generateRssFeed parse now items
        (Some {| title := VStr (lit "Factory AI Social Feed");
                 link := link o; description := description o |})) /\
     (truthy (link o) = false ->
      generateRssFeed parse now items (Some o) =
      generateRssFeed parse now items
        (Some {| title := title o; link := VStr (lit "https://factory.ai");
                 description := description o |})) /\
     (truthy (description o) = false ->
      generateRssFeed parse now items (Some o) =
      generateRssFeed parse now items
        (Some {| title := title o; link := link o;
                 description :=
                   VStr (lit "Aggregated mentions from Twitter, Reddit, and GitHub") |}))).
Proof.
  assert (E : generateRssFeed parse now [] (Some emptyOptions) =
              Ok (feedTemplate (lit "Factory AI Social Feed")
                    (lit "https://factory.ai")
                    (lit "Aggregated mentions from Twitter, Reddit, and GitHub")
                    (toUTCString (Some now)) [])) by reflexivity.
  split; [|split; [|split]].
  - rewrite E. reflexivity.
  - reflexivity.
  - intros xml Hx. rewrite E in Hx. clear E.
    assert (Ex : xml =
              feedTemplate (lit "Factory AI Social Feed")
                (lit "https://factory.ai")
                (lit "Aggregated mentions from Twitter, Reddit, and GitHub")
                (toUTCString (Some now)) []) by congruence.
    rewrite Ex. clear Hx Ex.
    pose proof (toUTCString_no_lt (Some now)) as H.
    generalize dependent (toUTCString (Some now)). intros d H.
    unfold feedTemplate. cbn.
    rewrite (isInfix_skip _ d _ H). reflexivity.
  - intros items o. unfold generateRssFeed. cbv zeta.
    cbn [title link description]. unfold js_or.
    split; [|split]; intros ->; reflexivity.
Qed.

Lemma generateRssFeed_empty_witness :
  isInfix (lit "<item>")
    (feedTemplate (lit "Factory AI Social Feed") (lit "https://factory.ai")
       (lit "Aggregated mentions from Twitter, Reddit, and GitHub")
       (lit "Thu, 01 Jan 1970 00:00:00 GMT") []) = false /\
  generateRssFeed noDates 0%Z [] (Some falsyOptions) =
  generateRssFeed noDates 0%Z []
    (Some {| title := VStr (lit "Factory AI Social Feed");
             link := link falsyOptions;
             description := description falsyOptions |}).
Proof.
  pose proof (generateRssFeed_empty noDates 0%Z) as (_ & _ & I & D).
  split.
  - apply I. reflexivity.
  - apply (proj1 (D [] falsyOptions)). reflexivity.
Defined.


(** * Further properties *)

(** ** escapeXml *)

Lemma wellEscaped_entity (x : char16) (r : jsstring) :
  wellEscaped r = true -> wellEscaped (entity x ++ r) = true.
Proof.
  intros H. unfold entity.
  destruct (N.eqb_spec x 38) as [->|H1]; [cbn; exact H|].
  destruct (N.eqb_spec x 60) as [->|H2]; [cbn; exact H|].
  destruct (N.eqb_spec x 62) as [->|H3]; [cbn; exact H|].
  destruct (N.eqb_spec x 34) as [->|H4]; [cbn; exact H|].
  destruct (N.eqb_spec x 39) as [->|H5]; [cbn; exact H|].
  apply N.eqb_neq in H1, H2, H3, H4, H5.
  cbn [app wellEscaped]. unfold reserved.
  rewrite H1, H2, H3, H4, H5. exact H.
Qed.

Lemma wellEscaped_escapeString (s : jsstring) :
  wellEscaped (escapeString s) = true.
Proof.
  rewrite escapeString_entity.
  induction s as [|x s IH]; [reflexivity|]. cbn [flat_map].
  now apply wellEscaped_entity.
Qed.

Lemma wellEscaped_no_raw (s : jsstring) (c : char16) :
  wellEscaped s = true -> In c s -> c <> 38%N -> reserved c = false.
Proof.
  induction s as [|x s IH]; [contradiction|]. cbn [wellEscaped].
  intros H [->|Hin] Hc; apply andb_true_iff in H; destruct H as [Hx Hs].
  - apply N.eqb_neq in Hc. rewrite Hc in Hx. now apply negb_true_iff.
  - now apply IH.
Qed.

(** X1.  Whatever [escapeXml] answers is safe to place in an element or in
    a quoted attribute: it holds no raw [<], [>], double quote or
    apostrophe, and each of its ampersands opens one of the five
    entities. *)
Theorem escapeXml_well_escaped (v : value) (e : jsstring) :
  escapeXml v = Ok e ->
  wellEscaped e = true /\
  (forall c, In c e -> c <> 60%N /\ c <> 62%N /\ c <> 34%N /\ c <> 39%N).
Proof.
  intros H.
  assert (W : wellEscaped e = true).
  { unfold escapeXml in H. destruct (negb (truthy v)).
    - injection H as <-. reflexivity.
    - destruct v; try discriminate. injection H as <-.
      apply wellEscaped_escapeString. }
  split; [exact W|]. intros c Hc.
  repeat split; intros ->;
    pose proof (wellEscaped_no_raw e _ W Hc ltac:(discriminate)) as R;
    discriminate R.
Qed.

Lemma escapeXml_well_escaped_witness :
  wellEscaped (lit "Tom &amp; &quot;Jerry&quot; &lt;3") = true.
Proof.
  apply (proj1 (escapeXml_well_escaped (VStr (lit "Tom & " ++ dq ++ lit "Jerry"
                                               ++ dq ++ lit " <3"))
                  _ eq_refl)).
Defined.

Lemma unescapeFrom_entity (x : char16) (r : jsstring) :
  unescapeFrom 0 (entity x ++ r) = x :: unescapeFrom 0 r.
Proof.
  unfold entity.
  destruct (N.eqb_spec x 38) as [->|H1]; [reflexivity|].
  destruct (N.eqb_spec x 60) as [->|H2]; [reflexivity|].
  destruct (N.eqb_spec x 62) as [->|H3]; [reflexivity|].
  destruct (N.eqb_spec x 34) as [->|H4]; [reflexivity|].
  destruct (N.eqb_spec x 39) as [->|H5]; [reflexivity|].
  apply N.eqb_neq in H1. cbn [app unescapeFrom]. now rewrite H1.
Qed.

Lemma unescapeXml_escapeString (s : jsstring) :
  unescapeXml (escapeString s) = s.
Proof.
  unfold unescapeXml. rewrite escapeString_entity.
  induction s as [|x s IH]; [reflexivity|]. cbn [flat_map].
  now rewrite unescapeFrom_entity, IH.
Qed.

(** X2.  Escaping loses nothing: two strings with the same escaped text are
    the same string, because reading the five entities back returns the
    string that was escaped. *)
Theorem escapeXml_injective (a b : jsstring) :
  escapeXml (VStr a) = escapeXml (VStr b) -> a = b.
Proof.
  rewrite !escapeXml_string. intros [= H].
  rewrite <- (unescapeXml_escapeString a), <- (unescapeXml_escapeString b).
  now rewrite H.
Qed.

Lemma escapeXml_injective_witness :
  lit "a<" ++ lit "b" = lit "a<b".
Proof. exact (escapeXml_injective (lit "a<" ++ lit "b") (lit "a<b") eq_refl). Defined.

(** X3.  Escaping works piece by piece: the escaped text of a
    concatenation is the concatenation of the escaped texts, so the text
    inserted by one pass is never altered by a later pass. *)
Theorem escapeXml_app (a b : jsstring) :
  escapeXml (VStr (a ++ b)) =
    (ea <- escapeXml (VStr a) ;; eb <- escapeXml (VStr b) ;; Ok (ea ++ eb)).
Proof.
  rewrite !escapeXml_string. cbn [bind]. f_equal.
  rewrite !escapeString_entity. apply flat_map_app.
Qed.

Lemma entity_length (c : char16) : 1 <= length (entity c) <= 6.
Proof.
  unfold entity.
  repeat match goal with
         | |- context [if ?b then _ else _] => destruct b
         end; cbn; lia.
Qed.

(** X4.  Escaping never shortens a string and at most multiplies its length
    by six (the longest entities have six characters). *)
Theorem escapeXml_length (s e : jsstring) :
  escapeXml (VStr s) = Ok e -> length s <= length e <= 6 * length s.
Proof.
  rewrite escapeXml_string. intros [= <-]. rewrite escapeString_entity.
  induction s as [|x s IH]; [simpl; lia|].
  cbn [flat_map]. rewrite length_app. cbn [length].
  pose proof (entity_length x). unfold char16 in *. lia.
Qed.

Lemma escapeXml_length_witness :
  length (lit "<>") <= length (lit "&lt;&gt;") <= 6 * length (lit "<>").
Proof. exact (escapeXml_length (lit "<>") _ eq_refl). Defined.

(** X5.  [escapeXml] raises a [TypeError] exactly on the truthy values that
    are not strings (a non-zero number, [true], a built-in object): these
    pass the falsy test and have no [replace] method. *)
Theorem escapeXml_throws_iff (v : value) :
  escapeXml v = Throw TypeError <-> stringOrFalsy v = false.
Proof.
  split; [|apply escapeXml_throws].
  intros H. destruct (stringOrFalsy v) eqn:E; [|reflexivity].
  rewrite (escapeXml_ok v E) in H. discriminate.
Qed.

(** ** getItemTitle *)

Lemma tidy_word (p : bool) (w r : jsstring) :
  wordOk w -> tidy p (w ++ r) = tidy false r.
Proof.
  intros [Hne Hw]. revert p. induction w as [|x w IH]; [contradiction|].
  intros p. cbn [forallb] in Hw. apply andb_true_iff in Hw.
  destruct Hw as [Hx Hw]. apply negb_true_iff in Hx.
  cbn [app tidy]. rewrite Hx. destruct w as [|y w]; [reflexivity|].
  apply IH; [discriminate | exact Hw].
Qed.

Lemma tidy_join (ws : list jsstring) :
  Forall wordOk ws -> tidy true (join [32%N] ws) = true.
Proof.
  induction 1 as [|w ws Hw Hws IH]; [reflexivity|].
  destruct ws as [|w' ws'].
  - cbn [join]. rewrite <- (app_nil_r w), tidy_word by exact Hw. reflexivity.
  - change (join [32%N] (w :: w' :: ws'))
      with (w ++ 32%N :: join [32%N] (w' :: ws')).
    rewrite tidy_word by exact Hw. cbn [tidy]. exact IH.
Qed.

Lemma tidy_firstn (p : bool) (n : nat) (s : jsstring) :
  tidy p s = true -> tidy p (firstn n s) = true.
Proof.
  revert p n. induction s as [|x s IH]; intros p [|n]; try reflexivity.
  cbn [firstn tidy]. destruct (isWhite x).
  - intros H. apply andb_true_iff in H. destruct H as [-> H]. now apply IH.
  - apply IH.
Qed.

Lemma tidy_app (p : bool) (a b : jsstring) :
  tidy p a = true -> forallb (fun c => negb (isWhite c)) b = true ->
  b <> [] -> tidy p (a ++ b) = true.
Proof.
  intros Ha Hb Hne. revert p Ha. induction a as [|x a IH]; intros p Ha.
  - cbn [app]. rewrite <- (app_nil_r b), tidy_word; [reflexivity|].
    split; assumption.
  - cbn [app tidy] in *. destruct (isWhite x).
    + apply andb_true_iff in Ha. destruct Ha as [-> Ha]. now apply IH.
    + now apply IH.
Qed.

Lemma tidy_weaken (s : jsstring) : tidy true s = true -> tidy false s = true.
Proof.
  destruct s as [|x s]; [reflexivity|]. cbn [tidy].
  destruct (isWhite x); [discriminate | auto].
Qed.

Lemma replaceWsRuns_tidy (p : bool) (s : jsstring) :
  tidy p s = true -> replaceWsRuns p s = s.
Proof.
  revert p. induction s as [|x s IH]; intros p; [reflexivity|].
  cbn [tidy replaceWsRuns]. destruct (isWhite x).
  - intros H. apply andb_true_iff in H. destruct H as [H Hs].
    apply andb_true_iff in H. destruct H as [Hp Hx].
    apply negb_true_iff in Hp. apply N.eqb_eq in Hx. subst.
    cbn [app]. now rewrite (IH true Hs).
  - intros H. now rewrite (IH false H).
Qed.

Lemma collapsed_last (c : jsstring) :
  collapsed c = [] \/
  exists u y, collapsed c = u ++ [y] /\ isWhite y = false.
Proof.
  unfold collapsed. destruct (words c) as [|w ws] eqn:E; [left; reflexivity|].
  right. apply join_last; [|discriminate]. rewrite <- E. apply words_ok.
Qed.

(** The title of a string content, with what the later properties need. *)
Lemma getItemTitle_shape (item : FeedItem) (c : jsstring) :
  content item = VStr c -> c <> [] ->
  exists t, getItemTitle item = Ok t /\ length t <= 80 /\
            tidy true t = true /\
            (t = [] \/ exists u y, t = u ++ [y] /\ isWhite y = false).
Proof.
  intros Hc Hne. rewrite (getItemTitle_string item c Hc Hne).
  assert (T : tidy true (collapsed c) = true)
    by (apply tidy_join, words_ok).
  destruct (Nat.ltb_spec 80 (length (collapsed c))) as [L|L].
  - eexists. split; [reflexivity|]. split; [|split].
    + rewrite length_app, length_firstn.
      change (length (lit "...")) with 3. lia.
    + apply tidy_app; [now apply tidy_firstn | reflexivity | discriminate].
    + right. exists (firstn 77 (collapsed c) ++ lit ".."), 46%N.
      split; [now rewrite <- app_assoc | reflexivity].
  - eexists. split; [reflexivity|]. split; [exact L|]. split; [exact T|].
    apply collapsed_last.
Qed.

Lemma tidy_white (p : bool) (t : jsstring) :
  tidy p t = true -> forall x, In x t -> isWhite x = true -> x = 32%N.
Proof.
  revert p. induction t as [|y t IH]; intros p T x Hx Hw; [contradiction|].
  cbn [tidy] in T. destruct Hx as [->|Hx].
  - rewrite Hw in T. apply andb_true_iff in T. destruct T as [T _].
    apply andb_true_iff in T. destruct T as [_ T]. now apply N.eqb_eq.
  - destruct (isWhite y).
    + apply andb_true_iff in T. destruct T as [_ T]. exact (IH _ T x Hx Hw).
    + exact (IH _ T x Hx Hw).
Qed.

(** X6.  The title of an item whose content is a non-empty string never
    exceeds 80 characters and is one tidy line: it does not begin or end
    with white space, every white-space character in it is a plain space
    (no tab or line break survives), and no two spaces are adjacent. *)
Theorem getItemTitle_tidy (item : FeedItem) (c : jsstring) :
  content item = VStr c -> c <> [] ->
  exists t, getItemTitle item = Ok t /\ length t <= 80 /\
            tidy true t = true /\
            (forall x, In x t -> isWhite x = true -> x = 32%N) /\
            (t = [] \/ exists u y, t = u ++ [y] /\ isWhite y = false).
Proof.
  intros Hc Hne.
  destruct (getItemTitle_shape item c Hc Hne) as (t & E & L & T & Z).
  exists t. repeat split; try assumption. exact (tidy_white _ _ T).
Qed.

Lemma getItemTitle_tidy_witness :
  exists t, getItemTitle redditItem = Ok t /\ length t <= 80 /\
            tidy true t = true.
Proof.
  destruct (getItemTitle_tidy redditItem _ eq_refl ltac:(discriminate))
    as (t & E & L & T & _).
  exists t. auto.
Defined.

(** X7.  Deriving a title is idempotent: a non-empty title that was derived
    from a string content, given back as the content, is returned
    unchanged (also when it was cut to 77 characters and the ellipsis). *)
Theorem getItemTitle_idempotent (item : FeedItem) (c t : jsstring) :
  content item = VStr c -> c <> [] -> getItemTitle item = Ok t -> t <> [] ->
  getItemTitle (withContent item (VStr t)) = Ok t.
Proof.
  intros Hc Hne Ht Hn.
  destruct (getItemTitle_shape item c Hc Hne) as (t' & E & L & T & Z).
  rewrite E in Ht. injection Ht as ->.
  unfold getItemTitle. cbn [content withContent].
  destruct t as [|x t]; [contradiction|]. cbn [truthy].
  rewrite (replaceWsRuns_tidy false _ (tidy_weaken _ T)).
  assert (R : trim (x :: t) = x :: t).
  { change (x :: t) with ([] ++ (x :: t)) at 1.
    rewrite <- (app_nil_r (x :: t)) at 1.
    apply trim_sandwich; [reflexivity | reflexivity |].
    right. split.
    - exists x, t. split; [reflexivity|]. cbn [tidy] in T.
      destruct (isWhite x); [discriminate | reflexivity].
    - destruct Z as [Z|Z]; [discriminate | exact Z]. }
  rewrite R. destruct (Nat.ltb_spec 80 (length (x :: t))) as [G|_];
    [lia | reflexivity].
Qed.

Lemma getItemTitle_idempotent_witness :
  getItemTitle (withContent redditItem (VStr (lit "Check out our new release!")))
  = Ok (lit "Check out our new release!").
Proof.
  apply (getItemTitle_idempotent redditItem _ _ eq_refl ltac:(discriminate)
           eq_refl ltac:(discriminate)).
Defined.

Lemma getProperty_names (key : jsstring) :
  getProperty names key = VUndefined \/ In (getProperty names key) namesValues.
Proof.
  unfold getProperty, names. cbn [ownProperty].
  repeat match goal with
         | |- context [if ?b then _ else _] => destruct b; [right; cbn; tauto|]
         end.
  unfold objectPrototypeGet.
  repeat match goal with
         | |- context [if ?b then _ else _] => destruct b; [right; cbn; tauto|]
         end.
  left. reflexivity.
Qed.

(** X10.  [getSourceName] is idempotent on every value: a display name, a
    passed-through identifier and even an inherited built-in are each
    answered unchanged when looked up again. *)
Theorem getSourceName_idempotent (v : value) :
  getSourceName (getSourceName v) = getSourceName v.
Proof.
  unfold getSourceName at 2 3.
  destruct (getProperty_names (toString v)) as [E|I].
  - rewrite E. cbn [js_or truthy]. unfold getSourceName. rewrite E. reflexivity.
  - revert I. generalize (getProperty names (toString v)) as r. intros r I.
    cbn [namesValues In] in I.
    repeat (destruct I as [<-|I]; [reflexivity|]). contradiction.
Qed.

(** ** generateItem *)

Lemma wellEscaped_plain (s : jsstring) :
  forallb (fun c => negb (reserved c)) s = true -> wellEscaped s = true.
Proof.
  induction s as [|x s IH]; [reflexivity|]. cbn [forallb wellEscaped].
  intros H. apply andb_true_iff in H. destruct H as [Hx Hs].
  rewrite (IH Hs), andb_true_r.
  destruct (N.eqb_spec x 38) as [->|_]; [discriminate Hx | exact Hx].
Qed.

Lemma wellEscaped_escaped (v : value) : wellEscaped (escaped v) = true.
Proof.
  destruct v; try reflexivity. apply wellEscaped_escapeString.
Qed.

(** No character of a printed date is reserved. *)
Lemma toUTCString_plain (tv : option Z) :
  forallb (fun c => negb (reserved c)) (toUTCString tv) = true.
Proof.
  destruct tv as [t|]; [|reflexivity].
  assert (D : forall z, forallb (fun c => negb (reserved c)) (decimal z) = true).
  { intros z. pose proof (decimal_chars z) as H. rewrite forallb_forall in *.
    intros c Hc. specialize (H c Hc). unfold isDigit in H. unfold reserved.
    destruct (N.eqb_spec c 38) as [->|]; [discriminate H|].
    destruct (N.eqb_spec c 60) as [->|]; [discriminate H|].
    destruct (N.eqb_spec c 62) as [->|]; [discriminate H|].
    destruct (N.eqb_spec c 34) as [->|]; [discriminate H|].
    destruct (N.eqb_spec c 39) as [->|]; [discriminate H | reflexivity]. }
  assert (P : forall k z, forallb (fun c => negb (reserved c)) (zeroPad k z) = true).
  { intros k z. unfold zeroPad. cbv zeta. rewrite forallb_app.
    apply andb_true_iff. split; [|apply D].
    apply forallb_forall. intros c Hc. apply repeat_spec in Hc. now subst. }
  assert (T : forall (l : list jsstring) d n,
             forallb (forallb (fun c => negb (reserved c))) (d :: l) = true ->
             forallb (fun c => negb (reserved c)) (nth n l d) = true).
  { intros l d n H. cbn [forallb] in H. apply andb_true_iff in H.
    destruct H as [Hd Hl]. rewrite forallb_forall in Hl.
    destruct (nth_in_or_default n l d) as [I| ->]; auto. }
  unfold toUTCString. cbv zeta. rewrite !forallb_app.
  unfold weekdayName, monthName. rewrite !P, !T by reflexivity.
  destruct (0 <=? _)%Z; reflexivity.
Qed.

(** X12.  In the fragment of an item that renders, every interpolated text
    outside the CDATA description (title, link, author, category, pubDate,
    guid, and the source text and its [url] attribute) is well escaped:
    no raw [<], [>] or quote, and no ampersand that does not open an
    entity. *)
Theorem generateItem_texts_escaped (parse : jsstring -> option Z)
    (item : FeedItem) :
  renders item = true ->
  generateItem parse item =
    Ok (itemTemplate (titleText item) (escaped (url item))
          (descriptionXml (toString (author item))
             (toString (getSourceName (source item)))
             (categoryParagraph item)
             (toString (js_or (content item) (VStr [])))
             (metadataBlock item))
          (escaped (author item)) (categoryText item)
          (toRfc822 parse (timestamp item))
          (escaped (id item)) (escaped (getSourceName (source item)))) /\
  wellEscaped (titleText item) = true /\
  wellEscaped (escaped (url item)) = true /\
  wellEscaped (escaped (author item)) = true /\
  wellEscaped (categoryText item) = true /\
  wellEscaped (toRfc822 parse (timestamp item)) = true /\
  wellEscaped (escaped (id item)) = true /\
  wellEscaped (escaped (getSourceName (source item))) = true.
Proof.
  intros R. split; [now rewrite generateItem_eq, R|].
  repeat split; try apply wellEscaped_escaped.
  - unfold titleText. destruct (getItemTitle item); [|reflexivity].
    apply wellEscaped_escapeString.
  - unfold categoryText. destruct (truthy (category item));
      [apply wellEscaped_escaped | reflexivity].
  - apply wellEscaped_plain, toUTCString_plain.
Qed.

Lemma generateItem_texts_escaped_witness :
  wellEscaped (titleText twitterItem) = true /\
  titleText twitterItem = lit "Shipped &lt;today&gt;".
Proof.
  split; [|reflexivity].
  apply (proj1 (proj2 (generateItem_texts_escaped noDates twitterItem eq_refl))).
Defined.

Lemma isPrefix_app (p r : jsstring) : isPrefix p (p ++ r) = true.
Proof.
  induction p as [|x p IH]; [reflexivity|]. cbn [app isPrefix].
  now rewrite N.eqb_refl, IH.
Qed.

Lemma isInfix_app (a p b : jsstring) : isInfix p (a ++ p ++ b) = true.
Proof.
  induction a as [|x a IH].
  - cbn [app]. destruct (p ++ b) eqn:E; cbn [isInfix];
      rewrite <- E, isPrefix_app; reflexivity.
  - cbn [app isInfix]. rewrite IH. apply orb_true_r.
Qed.

Lemma isInfix_right (p a r : jsstring) :
  isInfix p r = true -> isInfix p (a ++ r) = true.
Proof.
  intros H. induction a as [|x a IH]; [exact H|].
  cbn [app isInfix]. rewrite IH. apply orb_true_r.
Qed.

Lemma isInfix_here (x y z r : jsstring) :
  isInfix (x ++ y ++ z) (x ++ y ++ z ++ r) = true.
Proof.
  replace (x ++ y ++ z ++ r) with ([] ++ (x ++ y ++ z) ++ r)
    by (cbn [app]; now rewrite <- !app_assoc).
  apply isInfix_app.
Qed.

(** X13.  The description carries the content as it is: for an item that
    renders, the fragment holds the paragraph [<hr/><p>content</p>] with
    the content character for character, also when the content holds
    reserved characters or the CDATA terminator. *)
Theorem generateItem_content_verbatim (parse : jsstring -> option Z)
    (item : FeedItem) (c : jsstring) :
  renders item = true -> content item = VStr c ->
  exists xml,
    generateItem parse item = Ok xml /\
    isInfix (lit "<hr/><p>" ++ c ++ lit "</p>") xml = true.
Proof.
  intros R Hc. rewrite generateItem_eq, R. eexists. split; [reflexivity|].
  unfold itemView, itemTemplate, descriptionXml.
  assert (J : toString (js_or (content item) (VStr [])) = c).
  { rewrite Hc. destruct c; reflexivity. }
  rewrite J. rewrite <- !app_assoc.
  repeat first [apply isInfix_here | apply isInfix_right].
Qed.

Lemma generateItem_content_verbatim_witness :
  exists xml,
    generateItem noDates twitterItem = Ok xml /\
    isInfix (lit "<hr/><p>Shipped <today></p>") xml = true.
Proof.
  exact (generateItem_content_verbatim noDates twitterItem
           (lit "Shipped <today>") eq_refl eq_refl).
Defined.

(** ** generateRssFeed *)

Lemma mapM_generateItem (parse : jsstring -> option Z) (items : list FeedItem) :
  mapM (generateItem parse) items =
  if forallb renders items then Ok (map (fragmentOf parse) items)
  else Throw TypeError.
Proof.
  induction items as [|item items IH]; [reflexivity|].
  cbn [mapM forallb map]. rewrite generateItem_eq, IH.
  destruct (renders item); [|reflexivity]. cbn [bind andb].
  destruct (forallb renders items); reflexivity.
Qed.

Lemma stringOrFalsy_default (v : value) (d : jsstring) :
  stringOrFalsy (js_or v (VStr d)) = stringOrFalsy v.
Proof.
  unfold js_or. destruct (truthy v) eqn:E; [reflexivity|].
  destruct v; cbn in *; try reflexivity; try congruence.
  - now rewrite E.
  - now rewrite E.
Qed.

(** What [generateRssFeed] answers, in every case. *)
Lemma generateRssFeed_eq (parse : jsstring -> option Z) (now : Z)
    (items : list FeedItem) (o : FeedOptions) :
  generateRssFeed parse now items (Some o) =
  if feedRenders o items then Ok (feedOf parse now o items)
  else Throw TypeError.
Proof.
  unfold generateRssFeed, feedRenders, feedOf. cbv zeta.
  destruct (stringOrFalsy (title o)) eqn:Ht; cbn [andb].
  2:{ rewrite escapeXml_throws; [reflexivity|].
      now rewrite stringOrFalsy_default. }
  rewrite (escapeXml_default _ _ Ht). cbn [bind].
  destruct (stringOrFalsy (link o)) eqn:Hl; cbn [andb].
  2:{ rewrite escapeXml_throws; [reflexivity|].
      now rewrite stringOrFalsy_default. }
  rewrite (escapeXml_default _ _ Hl). cbn [bind].
  destruct (stringOrFalsy (description o)) eqn:Hd; cbn [andb].
  2:{ rewrite escapeXml_throws; [reflexivity|].
      now rewrite stringOrFalsy_default. }
  rewrite (escapeXml_default _ _ Hd). cbn [bind].
  rewrite mapM_generateItem.
  destruct (forallb renders items); reflexivity.
Qed.

Lemma isPrefix_weaken (p s r : jsstring) :
  isPrefix p s = true -> isPrefix p (s ++ r) = true.
Proof.
  revert s. induction p as [|x p IH]; intros s; [reflexivity|].
  destruct s as [|y s]; [discriminate|]. cbn [app isPrefix].
  intros H. apply andb_true_iff in H. destruct H as [-> H]. now apply IH.
Qed.

Lemma isSuffix_refl (p : jsstring) : isSuffix p p = true.
Proof.
  unfold isSuffix. rewrite <- (app_nil_r (rev p)) at 2. apply isPrefix_app.
Qed.

Lemma isSuffix_right (p a r : jsstring) :
  isSuffix p r = true -> isSuffix p (a ++ r) = true.
Proof.
  unfold isSuffix. intros H. rewrite rev_app_distr. now apply isPrefix_weaken.
Qed.

(** X15.  Every document [generateRssFeed] returns, for any items and
    options, opens with the XML declaration, the [rss] element with its
    version and Atom namespace and the channel up to its title, and closes
    with the end of the channel and of the [rss] element. *)
Theorem generateRssFeed_envelope (parse : jsstring -> option Z) (now : Z)
    (items : list FeedItem) (options : option FeedOptions) (xml : jsstring) :
  generateRssFeed parse now items options = Ok xml ->
  isPrefix feedHead xml = true /\ isSuffix feedTail xml = true.
Proof.
  assert (G : forall o, generateRssFeed parse now items (Some o) = Ok xml ->
              isPrefix feedHead xml = true /\ isSuffix feedTail xml = true).
  { intros o. rewrite generateRssFeed_eq.
    destruct (feedRenders o items); [|discriminate]. intros [= <-].
    unfold feedOf, feedTemplate. split; [reflexivity|].
    unfold feedTail.
    repeat first [apply isSuffix_refl | apply isSuffix_right]. }
  destruct options as [o|]; [apply G|]. apply (G emptyOptions).
Qed.

Lemma generateRssFeed_envelope_witness :
  isPrefix feedHead (feedOf noDates 0%Z falsyOptions sampleItems) = true /\
  isSuffix feedTail (feedOf noDates 0%Z falsyOptions sampleItems) = true.
Proof.
  exact (generateRssFeed_envelope noDates 0%Z sampleItems (Some falsyOptions)
           _ eq_refl).
Defined.

Lemma join_app (sep : jsstring) (a b : list jsstring) :
  a <> [] -> b <> [] -> join sep (a ++ b) = join sep a ++ sep ++ join sep b.
Proof.
  intros Ha Hb. induction a as [|x a IH]; [contradiction|].
  destruct a as [|y a].
  - cbn [app join]. destruct b; [contradiction | reflexivity].
  - change (join sep ((x :: y :: a) ++ b))
      with (x ++ sep ++ join sep ((y :: a) ++ b)).
    rewrite IH by discriminate.
    change (join sep (x :: y :: a)) with (x ++ sep ++ join sep (y :: a)).
    now rewrite <- !app_assoc.
Qed.

(** ** toRfc822 *)

Lemma same_second (t t' k : Z) :
  (0 < k)%Z -> (t / 1000 = t' / 1000)%Z ->
  (t / (1000 * k) = t' / (1000 * k))%Z.
Proof.
  intros Hk H. rewrite <- !Z.div_div by lia. now rewrite H.
Qed.

(** X18.  The date text has the resolution of a second: two Date objects
    whose time values lie in the same second print the same, the
    milliseconds are dropped. *)
Theorem toRfc822_seconds (parse : jsstring -> option Z) (t t' : Z) :
  (t / 1000 = t' / 1000)%Z ->
  toRfc822 parse (DDate (Some t)) = toRfc822 parse (DDate (Some t')).
Proof.
  intros H.
  pose proof (same_second t t' 86400 ltac:(lia) H) as D.
  pose proof (same_second t t' 3600 ltac:(lia) H) as Hh.
  pose proof (same_second t t' 60 ltac:(lia) H) as Hm.
  change (1000 * 86400)%Z with 86400000%Z in D.
  change (1000 * 3600)%Z with 3600000%Z in Hh.
  change (1000 * 60)%Z with 60000%Z in Hm.
  unfold toRfc822, newDate, toUTCString. cbv zeta.
  unfold Calendar.DateFromTime, Calendar.MonthFromTime, Calendar.InLeapYear,
    Calendar.DayWithinYear, Calendar.YearFromTime, Calendar.WeekDay,
    Calendar.HourFromTime, Calendar.MinFromTime, Calendar.SecFromTime,
    Calendar.Day, Calendar.msPerDay, Calendar.msPerHour, Calendar.msPerMinute,
    Calendar.msPerSecond.
  cbv zeta. rewrite D, Hh, Hm, H. reflexivity.
Qed.

Lemma toRfc822_seconds_witness :
  toRfc822 noDates (DDate (Some 1727881445000%Z))
  = toRfc822 noDates (DDate (Some 1727881445999%Z)).
Proof. exact (toRfc822_seconds noDates _ _ eq_refl). Defined.

Lemma YearFromTime_range (t : Z) :
  (-62167219200000 <= t <= 253402300799999)%Z ->
  (0 <= Calendar.YearFromTime t <= 9999)%Z.
Proof.
  intros H.
  assert (D : (Calendar.DayFromYear 0 <= Calendar.Day t
               < Calendar.DayFromYear 10000)%Z).
  { unfold Calendar.Day, Calendar.msPerDay.
    change (Calendar.DayFromYear 0) with (-719528)%Z.
    change (Calendar.DayFromYear 10000) with 2932897%Z.
    Z.to_euclidean_division_equations; lia. }
  split.
  - apply CalendarFacts.YearFromTime_largest. lia.
  - destruct (CalendarFacts.YearFromTime_bracket t) as [B _].
    destruct (Z.le_gt_cases (Calendar.YearFromTime t) 9999) as [L|G];
      [exact L|].
    pose proof (CalendarFacts.DayFromYear_mono 10000 (Calendar.YearFromTime t)
                  ltac:(lia)).
    lia.
Qed.

Lemma zeroPad4_length (n : Z) : (0 <= n <= 9999)%Z -> length (zeroPad 4 n) = 4.
Proof.
  intros H.
  assert (T : forallb (fun k => Nat.eqb (length (zeroPad 4 (Z.of_nat k))) 4)
                (seq 0 (100 * 100)) = true) by (vm_compute; reflexivity).
  rewrite forallb_forall in T. specialize (T (Z.to_nat n)).
  rewrite Z2Nat.id in T by lia. apply Nat.eqb_eq, T, in_seq. lia.
Qed.

(** X19.  For every instant of the years 0000 to 9999 the date text has
    exactly 29 characters, with a four-digit year and no sign. *)
Theorem toRfc822_width (parse : jsstring -> option Z) (t : Z) :
  (-62167219200000 <= t <= 253402300799999)%Z ->
  length (toRfc822 parse (DDate (Some t))) = 29.
Proof.
  intros H. pose proof (YearFromTime_range t H) as Y.
  unfold toRfc822, newDate, toUTCString. cbv zeta.
  destruct (Z.leb_spec 0 (Calendar.YearFromTime t)) as [_|N]; [|lia].
  pose proof (weekdayName_in _ (CalendarFacts.WeekDay_range t)) as W.
  pose proof (monthName_in _ (CalendarFacts.MonthFromTime_range t)) as M.
  assert (Lw : length (weekdayName (Calendar.WeekDay t)) = 3).
  { revert W. generalize (weekdayName (Calendar.WeekDay t)). intros w W.
    cbn [weekdayNames In] in W.
    repeat (destruct W as [<-|W]; [reflexivity|]). contradiction. }
  assert (Lm : length (monthName (Calendar.MonthFromTime t)) = 3).
  { revert M. generalize (monthName (Calendar.MonthFromTime t)). intros m M.
    cbn [monthNames In] in M.
    repeat (destruct M as [<-|M]; [reflexivity|]). contradiction. }
  pose proof (CalendarFacts.DateFromTime_range t).
  pose proof (CalendarFacts.HourFromTime_range t).
  pose proof (CalendarFacts.MinFromTime_range t).
  pose proof (CalendarFacts.SecFromTime_range t).
  rewrite !length_app, Lw, Lm, !zeroPad2_length by lia.
  rewrite zeroPad4_length by lia. reflexivity.
Qed.

Lemma toRfc822_width_witness :
  length (toRfc822 noDates (DDate (Some 1727881445000%Z))) = 29.
Proof. apply (toRfc822_width noDates 1727881445000%Z). lia. Defined.

Lemma Day_of_date (t : Z) :
  (Calendar.Day t =
   Calendar.DayFromYear (Calendar.YearFromTime t)
   + daysBeforeMonth (Calendar.MonthFromTime t) (Calendar.InLeapYear t)
   + (Calendar.DateFromTime t - 1))%Z.
Proof.
  destruct (CalendarFacts.DayWithinYear_range t) as [R L].
  unfold Calendar.DateFromTime, Calendar.MonthFromTime. cbv zeta.
  unfold Calendar.DayWithinYear in *.
  repeat match goal with
         | |- context [if (?a <? ?b)%Z then _ else _] =>
             destruct (Z.ltb_spec a b)
         end; cbv iota beta delta [daysBeforeMonth]; lia.
Qed.

(** X20.  The fields [toRfc822] prints are the civil date and time of the
    instant: read back as a year, a month, a day of the month and a time
    of day they denote the very second of the time value, so instants of
    different seconds never print the same fields. *)
Theorem toRfc822_fields (t : Z) :
  secondsOf (Calendar.YearFromTime t) (Calendar.MonthFromTime t)
    (Calendar.DateFromTime t) (Calendar.HourFromTime t)
    (Calendar.MinFromTime t) (Calendar.SecFromTime t) = (t / 1000)%Z /\
  (0 <= Calendar.MonthFromTime t <= 11)%Z /\
  (1 <= Calendar.DateFromTime t <= 31)%Z /\
  (0 <= Calendar.HourFromTime t < 24)%Z /\
  (0 <= Calendar.MinFromTime t < 60)%Z /\
  (0 <= Calendar.SecFromTime t < 60)%Z.
Proof.
  split.
  - unfold secondsOf. cbv zeta.
    change (if (Calendar.DaysInYear (Calendar.YearFromTime t) =? 366)%Z
            then 1%Z else 0%Z) with (Calendar.InLeapYear t).
    rewrite <- Day_of_date.
    unfold Calendar.Day, Calendar.HourFromTime, Calendar.MinFromTime,
      Calendar.SecFromTime, Calendar.msPerDay, Calendar.msPerHour,
      Calendar.msPerMinute, Calendar.msPerSecond.
    Z.to_euclidean_division_equations; lia.
  - repeat split;
      first [apply CalendarFacts.MonthFromTime_range
            | apply CalendarFacts.DateFromTime_range
            | apply CalendarFacts.HourFromTime_range
            | apply CalendarFacts.MinFromTime_range
            | apply CalendarFacts.SecFromTime_range ].
Qed.





(** ** The date text and the form of RFC 822 *)

Lemma toUTCString_not_invalid (t : Z) :
  toUTCString (Some t) <> lit "Invalid Date".
Proof.
  unfold toUTCString. cbv zeta.
  pose proof (weekdayName_in _ (CalendarFacts.WeekDay_range t)) as W.
  revert W. generalize (weekdayName (Calendar.WeekDay t)). intros w W.
  cbn [weekdayNames In] in W.
  repeat (destruct W as [<-|W]; [discriminate|]). contradiction.
Qed.

Lemma zeroPad2_twoDigits (n : Z) :
  (0 <= n < 100)%Z -> zeroPad 2 n = twoDigits n.
Proof.
  intros H.
  assert (T : forallb (fun k => str_eqb (zeroPad 2 (Z.of_nat k))
                                  (twoDigits (Z.of_nat k)))
                (seq 0 100) = true) by (vm_compute; reflexivity).
  rewrite forallb_forall in T. specialize (T (Z.to_nat n)).
  rewrite Z2Nat.id in T by lia. apply str_eqb_eq, T, in_seq. lia.
Qed.

Lemma zeroPad4_fourDigits (n : Z) :
  (0 <= n <= 9999)%Z -> zeroPad 4 n = fourDigits n.
Proof.
  intros H.
  assert (T : forallb (fun k => str_eqb (zeroPad 4 (Z.of_nat k))
                                  (fourDigits (Z.of_nat k)))
                (seq 0 (100 * 100)) = true) by (vm_compute; reflexivity).
  rewrite forallb_forall in T. specialize (T (Z.to_nat n)).
  rewrite Z2Nat.id in T by lia. apply str_eqb_eq, T, in_seq. lia.
Qed.

(** In the years 0000 to 9999 the text is a date of RFC 822 / RFC 1123. *)
Lemma toUTCString_rfc1123 (t : Z) :
  fourDigitYears t -> rfc1123Date (toUTCString (Some t)).
Proof.
  intros H. pose proof (YearFromTime_range t H) as Y.
  pose proof (CalendarFacts.WeekDay_range t) as Rw.
  pose proof (CalendarFacts.MonthFromTime_range t) as Rm.
  pose proof (CalendarFacts.DateFromTime_range t) as Rd.
  pose proof (CalendarFacts.HourFromTime_range t) as Rh.
  pose proof (CalendarFacts.MinFromTime_range t) as Ri.
  pose proof (CalendarFacts.SecFromTime_range t) as Rs.
  exists (Calendar.WeekDay t), (Calendar.DateFromTime t),
         (Calendar.MonthFromTime t), (Calendar.YearFromTime t),
         (Calendar.HourFromTime t), (Calendar.MinFromTime t),
         (Calendar.SecFromTime t).
  split; [lia|].
  unfold toUTCString. cbv zeta.
  destruct (Z.leb_spec 0 (Calendar.YearFromTime t)) as [_|N]; [|lia].
  rewrite Z.abs_eq by lia.
  rewrite !zeroPad2_twoDigits, zeroPad4_fourDigits by lia.
  unfold weekdayName, monthName.
  rewrite (nth_indep weekdayNames (lit "Sat") [])
    by (change (length weekdayNames) with 7; lia).
  rewrite (nth_indep monthNames (lit "Dec") [])
    by (change (length monthNames) with 12; lia).
  reflexivity.
Qed.





(** ** The feed document *)

Lemma join_lines (l : list jsstring) : join nl l ++ nl = itemLines l.
Proof.
  induction l as [|x l IH]; [reflexivity|].
  destruct l as [|y l].
  - cbn [join itemLines flat_map]. now rewrite app_nil_r.
  - change (join nl (x :: y :: l)) with (x ++ nl ++ join nl (y :: l)).
    rewrite <- !app_assoc, IH. cbn [itemLines flat_map].
    now rewrite <- !app_assoc.
Qed.

Lemma feedTemplate_lines (t l d date : jsstring) (fragments : list jsstring) :
  feedTemplate t l d date (join nl fragments) =
  channelOpen t l d date ++ itemLines fragments ++ channelClose.
Proof.
  rewrite <- join_lines. unfold feedTemplate, channelOpen, channelClose.
  rewrite <- !app_assoc. reflexivity.
Qed.

Lemma itemLines_split (l1 l2 : list jsstring) (x : jsstring) :
  itemLines (l1 ++ x :: l2) =
  flat_map (fun y => y ++ nl) l1 ++ x ++ nl ++ flat_map (fun y => y ++ nl) l2.
Proof.
  assert (E : itemLines (l1 ++ x :: l2)
              = flat_map (fun y => y ++ nl) (l1 ++ x :: l2))
    by (destruct l1; reflexivity).
  rewrite E, flat_map_app. cbn [flat_map]. now rewrite <- !app_assoc.
Qed.

(** The document of a call whose options and items render. *)
Lemma generateRssFeed_document (parse : jsstring -> option Z) (now : Z)
    (items : list FeedItem) (options : option FeedOptions)
    (fragments : list jsstring) :
  Forall2 (fun item x => generateItem parse item = Ok x) items fragments ->
  stringOrFalsy (title (givenOptions options)) = true ->
  stringOrFalsy (link (givenOptions options)) = true ->
  stringOrFalsy (description (givenOptions options)) = true ->
  generateRssFeed parse now items options =
    Ok (channelOpen
          (escaped (js_or (title (givenOptions options))
                      (VStr (lit "Factory AI Social Feed"))))
          (escaped (js_or (link (givenOptions options))
                      (VStr (lit "https://factory.ai"))))
          (escaped (js_or (description (givenOptions options))
             (VStr (lit "Aggregated mentions from Twitter, Reddit, and GitHub"))))
          (toUTCString (Some now))
        ++ itemLines fragments ++ channelClose).
Proof.
  intros F Ht Hl Hd. unfold generateRssFeed. cbv zeta.
  fold (givenOptions options).
  rewrite (escapeXml_default _ _ Ht), (escapeXml_default _ _ Hl),
    (escapeXml_default _ _ Hd). cbn [bind].
  apply mapM_Forall2 in F. rewrite F. cbn [bind].
  now rewrite feedTemplate_lines.
Qed.

(** C9.  When the options and every item render, the feed is the opening
    of the document, then the fragment that [generateItem] gives for each
    item, one per item in the order of the items and each followed by a
    single newline, then the closing: every fragment occurs in the
    document, and an earlier item's fragment before a later one's.  An
    item that raises is not skipped: the call raises.  Omitted options
    behave as [{}]. *)
Theorem generateRssFeed_items (parse : jsstring -> option Z) (now : Z)
    (items : list FeedItem) (options : option FeedOptions) :
  (forall fragments xml,
     Forall2 (fun item x => generateItem parse item = Ok x) items fragments ->
     stringOrFalsy (title (givenOptions options)) = true ->
     stringOrFalsy (link (givenOptions options)) = true ->
     stringOrFalsy (description (givenOptions options)) = true ->
     xml =
       lit "<?xml version=" ++ dq ++ lit "1.0" ++ dq ++ lit " encoding="
         ++ dq ++ lit "UTF-8" ++ dq ++ lit "?>" ++ nl
       ++ lit "<rss version=" ++ dq ++ lit "2.0" ++ dq ++ lit " xmlns:atom="
         ++ dq ++ lit "http://www.w3.org/2005/Atom" ++ dq ++ lit ">" ++ nl
       ++ lit "  <channel>" ++ nl
       ++ lit "    <title>"
         ++ escaped (js_or (title (givenOptions options))
                       (VStr (lit "Factory AI Social Feed")))
         ++ lit "</title>" ++ nl
       ++ lit "    <link>"
         ++ escaped (js_or (link (givenOptions options))
                       (VStr (lit "https://factory.ai")))
         ++ lit "</link>" ++ nl
       ++ lit "    <description>"
         ++ escaped (js_or (description (givenOptions options))
              (VStr (lit "Aggregated mentions from Twitter, Reddit, and GitHub")))
         ++ lit "</description>" ++ nl
       ++ lit "    <language>en-us</language>" ++ nl
       ++ lit "    <lastBuildDate>" ++ toUTCString (Some now)
         ++ lit "</lastBuildDate>" ++ nl
       ++ lit "    <generator>Factory AI Feed Scraper</generator>" ++ nl
       ++ lit "    <ttl>10</ttl>" ++ nl
       ++ (match fragments with
           | [] => nl
           | _ => flat_map (fun x => x ++ nl) fragments
           end)
       ++ lit "  </channel>" ++ nl
       ++ lit "</rss>" ->
     generateRssFeed parse now items options = Ok xml /\
     (forall x, In x fragments -> isInfix x xml = true) /\
     (forall l1 x l2 y l3, fragments = l1 ++ x :: l2 ++ y :: l3 ->
        exists pre mid post, xml = pre ++ x ++ mid ++ y ++ post)) /\
  (Exists (fun item => generateItem parse item = Throw TypeError) items ->
   generateRssFeed parse now items options = Throw TypeError) /\
  generateRssFeed parse now items None =
    generateRssFeed parse now items (Some emptyOptions).
Proof.
  split; [|split; [apply generateRssFeed_throw | reflexivity]].
  intros fragments xml F Ht Hl Hd Ex.
  assert (E : xml =
              channelOpen
                (escaped (js_or (title (givenOptions options))
                            (VStr (lit "Factory AI Social Feed"))))
                (escaped (js_or (link (givenOptions options))
                            (VStr (lit "https://factory.ai"))))
                (escaped (js_or (description (givenOptions options))
                   (VStr (lit "Aggregated mentions from Twitter, Reddit, and GitHub"))))
                (toUTCString (Some now))
              ++ itemLines fragments ++ channelClose).
  { rewrite Ex. unfold channelOpen, channelClose, itemLines.
    rewrite <- !app_assoc. reflexivity. }
  clear Ex. split; [|split].
  - rewrite E. apply generateRssFeed_document; assumption.
  - intros x Hx. apply in_split in Hx. destruct Hx as (l1 & l2 & ->).
    rewrite E, itemLines_split.
    apply isInfix_right. rewrite <- !app_assoc. apply isInfix_app.
  - intros l1 x l2 y l3 ->. rewrite E, itemLines_split.
    rewrite flat_map_app. cbn [flat_map].
    exists (channelOpen
              (escaped (js_or (title (givenOptions options))
                          (VStr (lit "Factory AI Social Feed"))))
              (escaped (js_or (link (givenOptions options))
                          (VStr (lit "https://factory.ai"))))
              (escaped (js_or (description (givenOptions options))
                 (VStr (lit "Aggregated mentions from Twitter, Reddit, and GitHub"))))
              (toUTCString (Some now)) ++ flat_map (fun y0 => y0 ++ nl) l1),
           (nl ++ flat_map (fun y0 => y0 ++ nl) l2),
           (nl ++ flat_map (fun y0 => y0 ++ nl) l3 ++ channelClose).
    rewrite <- !app_assoc. reflexivity.
Qed.

Lemma renders_fragments (parse : jsstring -> option Z) (items : list FeedItem) :
  forallb renders items = true ->
  Forall2 (fun item x => generateItem parse item = Ok x) items
    (map (fragmentOf parse) items).
Proof.
  induction items as [|item items IH]; [constructor|].
  cbn [forallb map]. intros H. apply andb_true_iff in H. destruct H as [R H].
  constructor; [|now apply IH]. now rewrite generateItem_eq, R.
Qed.

Lemma generateRssFeed_items_witness :
  generateRssFeed noDates 0%Z sampleItems None =
    Ok (channelOpen (lit "Factory AI Social Feed") (lit "https://factory.ai")
          (lit "Aggregated mentions from Twitter, Reddit, and GitHub")
          (lit "Thu, 01 Jan 1970 00:00:00 GMT")
        ++ (fragmentOf noDates twitterItem ++ nl
              ++ fragmentOf noDates redditItem ++ nl
              ++ fragmentOf noDates bareItem ++ nl)
        ++ channelClose).
Proof.
  exact (proj1 (proj1 (generateRssFeed_items noDates 0%Z sampleItems None)
                  (map (fragmentOf noDates) sampleItems) _
                  (renders_fragments noDates sampleItems eq_refl)
                  eq_refl eq_refl eq_refl eq_refl)).
Defined.

(** ** Raising, and arguments that are not objects *)

(** X8.  [getItemTitle] raises a [TypeError] exactly when its argument is
    [null] or [undefined], or the content is truthy and not a string.
    With a falsy content the fallback title is returned uncut: its length
    is that of the source and author texts plus 9, so it exceeds 80
    characters as soon as those two have more than 71 together. *)
Theorem getItemTitle_throws_iff (x : option FeedItem) :
  (onItem getItemTitle x = Throw TypeError <->
   x = None \/
   exists item, x = Some item /\ stringOrFalsy (content item) = false) /\
  (forall item, x = Some item -> truthy (content item) = false ->
   exists t,
     onItem getItemTitle x = Ok t /\
     length t = length (toString (source item)) + 9
                + length (toString (author item)) /\
     (71 < length (toString (source item)) + length (toString (author item))
      -> 80 < length t)).
Proof.
  split.
  - destruct x as [item|]; cbn [onItem].
    + split.
      * intros H. right. exists item. split; [reflexivity|].
        destruct (stringOrFalsy (content item)) eqn:E; [|reflexivity].
        destruct (getItemTitle_ok item E) as (t & Ht & _). congruence.
      * intros [H|(item' & [= <-] & H)]; [discriminate|].
        now apply getItemTitle_throws.
    + split; [auto | reflexivity].
  - intros item -> H. cbn [onItem]. unfold getItemTitle. rewrite H.
    eexists. split; [reflexivity|].
    rewrite !length_app. change (length (lit " post by ")) with 9.
    unfold char16. split; lia.
Qed.

Lemma getItemTitle_throws_iff_witness :
  exists t, onItem getItemTitle (Some longAuthorItem) = Ok t /\ 80 < length t.
Proof.
  destruct (proj2 (getItemTitle_throws_iff (Some longAuthorItem))
              longAuthorItem eq_refl eq_refl) as (t & E & _ & L).
  exists t. split; [exact E|]. apply L. cbn. lia.
Defined.

(** X11.  [generateItem] raises a [TypeError] exactly when its argument is
    [null] or [undefined], or one of the fields it escapes (content, url,
    author, category, id) or the display name of the source is truthy and
    not a string; otherwise it returns the fragment.  The timestamp and the
    metadata never make it raise. *)
Theorem generateItem_throws_iff (parse : jsstring -> option Z)
    (x : option FeedItem) :
  (onItem (generateItem parse) x = Throw TypeError <->
   x = None \/ exists item, x = Some item /\ renders item = false) /\
  (forall item, x = Some item -> renders item = true ->
   onItem (generateItem parse) x = Ok (fragmentOf parse item)) /\
  (forall item ts m, x = Some item ->
     (generateItem parse (withTimestamp item ts m) = Throw TypeError <->
      generateItem parse item = Throw TypeError)).
Proof.
  split; [|split].
  - destruct x as [item|]; cbn [onItem].
    + rewrite generateItem_eq. destruct (renders item) eqn:R; split.
      * discriminate.
      * intros [H|(item' & [= <-] & H)]; [discriminate | congruence].
      * intros _. right. exists item. auto.
      * reflexivity.
    + split; [auto | reflexivity].
  - intros item -> R. cbn [onItem]. now rewrite generateItem_eq, R.
  - intros item ts m _. rewrite !generateItem_eq.
    change (renders (withTimestamp item ts m)) with (renders item).
    destruct (renders item); split; intros; try reflexivity; discriminate.
Qed.

Lemma generateItem_throws_iff_witness :
  onItem (generateItem noDates) (Some twitterItem)
  = Ok (fragmentOf noDates twitterItem).
Proof.
  apply (proj1 (proj2 (generateItem_throws_iff noDates (Some twitterItem)))
           twitterItem eq_refl eq_refl).
Defined.





(** What [generateRssFeed] answers for options and items that render,
    written with the document of the specification. *)
Lemma generateRssFeed_rendered (parse : jsstring -> option Z) (now : Z)
    (items : list FeedItem) (o : FeedOptions) :
  feedRenders o items = true ->
  generateRssFeed parse now items (Some o) =
    Ok (channelOpen
          (escaped (js_or (title o) (VStr (lit "Factory AI Social Feed"))))
          (escaped (js_or (link o) (VStr (lit "https://factory.ai"))))
          (escaped (js_or (description o)
             (VStr (lit "Aggregated mentions from Twitter, Reddit, and GitHub"))))
          (toUTCString (Some now))
        ++ itemLines (map (fragmentOf parse) items) ++ channelClose).
Proof.
  intros R. rewrite generateRssFeed_eq, R. unfold feedOf.
  now rewrite feedTemplate_lines.
Qed.

(** X16.  In every document of options and items that render, the channel
    title, link and description are well escaped, whether they come from
    the options or are the defaults; the build date is never the sentinel,
    and while the clock is in the years 0000 to 9999 it is a date of
    RFC 822 / RFC 1123. *)
Theorem generateRssFeed_channel_escaped (parse : jsstring -> option Z)
    (now : Z) (items : list FeedItem) (o : FeedOptions) :
  feedRenders o items = true ->
  exists t l d,
    generateRssFeed parse now items (Some o)
    = Ok (channelOpen t l d (toUTCString (Some now))
          ++ itemLines (map (fragmentOf parse) items) ++ channelClose) /\
    t = escaped (js_or (title o) (VStr (lit "Factory AI Social Feed"))) /\
    l = escaped (js_or (link o) (VStr (lit "https://factory.ai"))) /\
    d = escaped (js_or (description o)
          (VStr (lit "Aggregated mentions from Twitter, Reddit, and GitHub"))) /\
    wellEscaped t = true /\ wellEscaped l = true /\ wellEscaped d = true /\
    toUTCString (Some now) <> lit "Invalid Date" /\
    (fourDigitYears now -> rfc1123Date (toUTCString (Some now))).
Proof.
  intros R. do 3 eexists.
  split; [now apply generateRssFeed_rendered|].
  repeat split; try apply wellEscaped_escaped.
  - apply toUTCString_not_invalid.
  - apply toUTCString_rfc1123.
Qed.

Lemma generateRssFeed_channel_escaped_witness :
  exists t,
    t = lit "R&amp;D &lt;feed&gt;" /\ wellEscaped t = true /\
    rfc1123Date (toUTCString (Some 1727881445000%Z)).
Proof.
  destruct (generateRssFeed_channel_escaped noDates 1727881445000%Z sampleItems
              {| title := VStr (lit "R&D <feed>"); link := VNull;
                 description := VUndefined |} eq_refl)
    as (t & l & d & _ & Et & _ & _ & Wt & _ & _ & _ & Rf).
  exists t. split; [exact Et|]. split; [exact Wt|].
  apply Rf. unfold fourDigitYears. lia.
Defined.

Lemma feedRenders_of_ok (parse : jsstring -> option Z) (now : Z)
    (items : list FeedItem) (o : FeedOptions) (xml : jsstring) :
  generateRssFeed parse now items (Some o) = Ok xml -> feedRenders o items = true.
Proof.
  rewrite generateRssFeed_eq. destruct (feedRenders o items);
    [reflexivity | discriminate].
Qed.

(** X17.  Feeds compose: when the documents of two non-empty lists of
    items under the same options and clock are the opening, the lines [A]
    of the first list (resp. [B] of the second) and the closing, the
    document of the two lists one after the other is the opening, [A],
    [B] and the closing; [A] and [B] are the fragments of the items, each
    followed by a newline. *)
Theorem generateRssFeed_append (parse : jsstring -> option Z) (now : Z)
    (o : FeedOptions) (items more : list FeedItem) (xa xb : jsstring) :
  generateRssFeed parse now items (Some o) = Ok xa ->
  generateRssFeed parse now more (Some o) = Ok xb ->
  items <> [] -> more <> [] ->
  exists t l d fa fb,
    Forall2 (fun item x => generateItem parse item = Ok x) items fa /\
    Forall2 (fun item x => generateItem parse item = Ok x) more fb /\
    xa = channelOpen t l d (toUTCString (Some now))
           ++ flat_map (fun x => x ++ nl) fa ++ channelClose /\
    xb = channelOpen t l d (toUTCString (Some now))
           ++ flat_map (fun x => x ++ nl) fb ++ channelClose /\
    generateRssFeed parse now (items ++ more) (Some o) =
      Ok (channelOpen t l d (toUTCString (Some now))
          ++ flat_map (fun x => x ++ nl) fa
          ++ flat_map (fun x => x ++ nl) fb ++ channelClose).
Proof.
  intros Ha Hb Hi Hm.
  pose proof (feedRenders_of_ok _ _ _ _ _ Ha) as Ra.
  pose proof (feedRenders_of_ok _ _ _ _ _ Hb) as Rb.
  assert (Rab : feedRenders o (items ++ more) = true).
  { unfold feedRenders in *. rewrite forallb_app.
    destruct (stringOrFalsy (title o) && stringOrFalsy (link o)
              && stringOrFalsy (description o)); [|discriminate].
    cbn [andb] in *. now rewrite Ra, Rb. }
  assert (La : forall l : list FeedItem, l <> [] ->
               itemLines (map (fragmentOf parse) l)
               = flat_map (fun x => x ++ nl) (map (fragmentOf parse) l)).
  { intros [|y l] H; [contradiction | reflexivity]. }
  rewrite (generateRssFeed_rendered _ _ _ _ Ra) in Ha.
  rewrite (generateRssFeed_rendered _ _ _ _ Rb) in Hb.
  rewrite (generateRssFeed_rendered _ _ _ _ Rab).
  rewrite La in Ha by exact Hi. rewrite La in Hb by exact Hm.
  rewrite La by (destruct items; [contradiction | discriminate]).
  rewrite map_app, flat_map_app, <- app_assoc.
  exists (escaped (js_or (title o) (VStr (lit "Factory AI Social Feed")))),
         (escaped (js_or (link o) (VStr (lit "https://factory.ai")))),
         (escaped (js_or (description o)
            (VStr (lit "Aggregated mentions from Twitter, Reddit, and GitHub")))),
         (map (fragmentOf parse) items), (map (fragmentOf parse) more).
  unfold feedRenders in Ra, Rb.
  apply andb_true_iff in Ra, Rb. destruct Ra as [_ Ra], Rb as [_ Rb].
  split; [now apply renders_fragments|].
  split; [now apply renders_fragments|].
  split; [congruence|]. split; [congruence | reflexivity].
Qed.

Lemma generateRssFeed_append_witness :
  exists t l d fa fb,
    Forall2 (fun item x => generateItem noDates item = Ok x) [twitterItem] fa /\
    Forall2 (fun item x => generateItem noDates item = Ok x)
      [redditItem; bareItem] fb /\
    feedOf noDates 0%Z emptyOptions [twitterItem]
      = channelOpen t l d (toUTCString (Some 0%Z))
          ++ flat_map (fun x => x ++ nl) fa ++ channelClose /\
    feedOf noDates 0%Z emptyOptions [redditItem; bareItem]
      = channelOpen t l d (toUTCString (Some 0%Z))
          ++ flat_map (fun x => x ++ nl) fb ++ channelClose /\
    generateRssFeed noDates 0%Z ([twitterItem] ++ [redditItem; bareItem])
      (Some emptyOptions) =
      Ok (channelOpen t l d (toUTCString (Some 0%Z))
          ++ flat_map (fun x => x ++ nl) fa
          ++ flat_map (fun x => x ++ nl) fb ++ channelClose).
Proof.
  exact (generateRssFeed_append noDates 0%Z emptyOptions
           [twitterItem] [redditItem; bareItem]
           (feedOf noDates 0%Z emptyOptions [twitterItem])
           (feedOf noDates 0%Z emptyOptions [redditItem; bareItem])
           eq_refl eq_refl ltac:(discriminate) ltac:(discriminate)).
Defined.

(** How a Number prints: exactly below 2^53, the shortest digits that read
    back above, and in exponent form from 10^21. *)
Example toString_numbers :
  toString (VNum 5) = lit "5" /\
  toString (VNum (-12)) = lit "-12" /\
  toString (VNum 9007199254740993) = lit "9007199254740992" /\
  toString (VNum 9223372036854775808) = lit "9223372036854776000" /\
  toString (VNum 999999999999999999999) = lit "1e+21" /\
  toString (VNum 1000000000000000000000) = lit "1e+21" /\
  toString (VNum 1180591620717411303424) = lit "1.1805916207174113e+21" /\
  toString (VNum (2 ^ 1024)) = lit "Infinity".
Proof. repeat split; vm_compute; reflexivity. Qed.
